(** * The BackendRecord reconciler of the load-balancer controlling framework

    A shallow embedding of [pkg/lbcfcontroller] (the backend controller,
    [syncBackendRecord] and the paths it dispatches to) and of
    [pkg/lbcfcontroller/util/webhook_helper.go] ([callWebhook] and the
    [WebhookInvoker] built on it), followed by the properties of the
    reconciler that the specification states.

    Go values are modelled as follows.
    - [string] is Rocq's [string]; [==] on strings is [decide (_ = _)].
    - [map[string]string] is [option (gmap string string)]: [None] is the nil
      map, [Some ∅] the empty one; [len] is [len_map].
    - a pointer that may be nil is an [option]; [DeepCopy] is the identity,
      values being immutable here.
    - [time.Duration] and [int32] are [Z].
    - an [error] is a record of its message and of whether the apimachinery
      predicate [errors.IsNotFound] holds of it; a possibly-nil [error] is an
      [option error], a pair [(v, err)] is a [result].
    - the controller's listers, API client and webhook invoker are functions
      stored in the [backendController] record; what the controller mutates or
      emits (the in-flight-delete registry, events, API writes, driver calls)
      lives in a [World] that every method threads through. *)

From Stdlib Require Import ZArith.
From stdpp Require Import base option list strings gmap pretty.

Local Open Scope Z_scope.

(** ** Go runtime *)

Module go.

Record error := Error { notFound : bool; msg : string }.

(** [fmt.Errorf] and [errors.New]: a plain error, never a NotFound status. *)
Definition Errorf (m : string) : error := Error false m.

(** [(v, err)] with exactly one side meaningful. *)
Definition result (A : Type) : Type := error + A.

(** [map[string]string]. *)
Definition len_map (m : option (gmap string string)) : nat :=
  match m with
  | None => 0%nat
  | Some g => size g
  end.

Definition dquote : string := String (Ascii.ascii_of_nat 34) EmptyString.

Definition backslash : string := String (Ascii.ascii_of_nat 92) EmptyString.

Definition hexDigit (n : nat) : string :=
  String (Ascii.ascii_of_nat (if (n <? 10)%nat then 48 + n else 87 + n))
    EmptyString.

(** One byte as [strconv.Quote] writes it: the quote and the backslash
    behind a backslash, the control characters by their letter or as
    [\xNN]. Bytes from 128 on are left as they are, as Go leaves the
    printable characters they encode. *)
Definition escapeByte (ch : Ascii.ascii) : string :=
  let n := Ascii.nat_of_ascii ch in
  if (n =? 34)%nat then backslash +:+ dquote
  else if (n =? 92)%nat then backslash +:+ backslash
  else if (n =? 7)%nat then backslash +:+ "a"
  else if (n =? 8)%nat then backslash +:+ "b"
  else if (n =? 12)%nat then backslash +:+ "f"
  else if (n =? 10)%nat then backslash +:+ "n"
  else if (n =? 13)%nat then backslash +:+ "r"
  else if (n =? 9)%nat then backslash +:+ "t"
  else if (n =? 11)%nat then backslash +:+ "v"
  else if (n <? 32)%nat || (n =? 127)%nat then
    backslash +:+ "x" +:+ hexDigit (n / 16) +:+ hexDigit (n mod 16)
  else String ch EmptyString.

Fixpoint escape (s : string) : string :=
  match s with
  | EmptyString => EmptyString
  | String ch rest => escapeByte ch +:+ escape rest
  end.

(** [%q] on a string. *)
Definition quote (s : string) : string := dquote +:+ escape s +:+ dquote.

Fixpoint join (sep : string) (l : list string) : string :=
  match l with
  | [] => ""
  | [x] => x
  | x :: xs => x +:+ sep +:+ join sep xs
  end.

(** [strings.Split s (String sep "")] for a one-byte separator: the pieces
    between the separators, [n + 1] pieces for [n] separators. *)
Fixpoint split_aux (sep : Ascii.ascii) (cur : string) (s : string) : list string :=
  match s with
  | EmptyString => [String.rev cur]
  | String c rest =>
      if decide (c = sep) then String.rev cur :: split_aux sep "" rest
      else split_aux sep (String c cur) rest
  end.

Definition Split (s : string) (sep : Ascii.ascii) : list string := split_aux sep "" s.

Definition slash : Ascii.ascii := Ascii.ascii_of_nat 47.

Definition HasPrefix (s p : string) : bool := String.prefix p s.

End go.

Export go(error, result).

(** [errors.IsNotFound] of k8s.io/apimachinery. *)
Definition IsNotFound (e : option error) : bool :=
  match e with
  | Some e => go.notFound e
  | None => false
  end.

(** [cache.SplitMetaNamespaceKey] of k8s.io/client-go: one part is a bare
    name, two parts are namespace and name, anything else is an error. *)
Definition SplitMetaNamespaceKey (key : string) : result (string * string) :=
  match go.Split key go.slash with
  | [name] => inr ("", name)
  | [namespace; name] => inr (namespace, name)
  | _ => inl (go.Errorf ("unexpected key format: " +:+ go.quote key))
  end.

(** ** API objects ([lbcfapi] and the Kubernetes core objects read by the
    controller)

    The declarations of these types are not among the sources at hand; the
    records below carry the fields the controller reads or writes, with the
    types the specification's data model gives them. *)

Module lbcfapi.

(** Modelled from the spec: the sentinel [deregister-backend]. *)
Definition FinalizerDeregisterBackend : string := "deregister-backend".

Definition PolicyIfNotReady : string := "IfNotReady".
Definition PolicyAlways : string := "Always".

Definition BackendRegistered : string := "BackendRegistered".
Definition ConditionTrue : string := "True".
Definition ConditionFalse : string := "False".
Definition ReasonOperationFailed : string := "OperationFailed".

Record PodBackendInfo := {
  pod_Name : string;
  pod_Port : Z
}.

Record ServiceBackendInfo := {
  svc_Name : string;
  svc_Port : Z;
  svc_NodeName : string
}.

Record EnsurePolicyConfig := {
  Policy : string;
  MinPeriod : Z
}.

Record BackendRecordSpec := {
  LBDriver : string;
  (** Modelled from the spec: an opaque identity that [%s] prints as is. *)
  LBInfo : string;
  LBAttributes : option (gmap string string);
  Parameters : option (gmap string string);
  PodBackendInfo_ : option PodBackendInfo;
  ServiceBackendInfo_ : option ServiceBackendInfo;
  StaticAddr : option string;
  EnsurePolicy : option EnsurePolicyConfig
}.

Record BackendRecordCondition := {
  cond_Type : string;
  cond_Status : string;
  LastTransitionTime : Z;
  Reason : string;
  Message : string
}.

Record BackendRecordStatus := {
  BackendAddr : string;
  InjectedInfo : option (gmap string string);
  Conditions : list BackendRecordCondition
}.

Record BackendRecord := {
  Namespace : string;
  Name : string;
  UID : string;
  DeletionTimestamp : option Z;
  Finalizers : list string;
  Spec : BackendRecordSpec;
  Status : BackendRecordStatus
}.

Record WebhookConfig := {
  hook_Name : string;
  hook_Timeout : Z
}.

Record LoadBalancerDriverSpec := {
  Url : string;
  Webhooks : list WebhookConfig
}.

Record LoadBalancerDriver := {
  drv_Namespace : string;
  drv_Name : string;
  drv_Spec : LoadBalancerDriverSpec
}.

(** Field updates, as Go's assignments through a pointer to a copy. *)
Definition set_BackendAddr (b : BackendRecord) (a : string) : BackendRecord :=
  {| Namespace := Namespace b; Name := Name b; UID := UID b;
     DeletionTimestamp := DeletionTimestamp b; Finalizers := Finalizers b;
     Spec := Spec b;
     Status := {| BackendAddr := a;
                  InjectedInfo := InjectedInfo (Status b);
                  Conditions := Conditions (Status b) |} |}.

Definition set_InjectedInfo (b : BackendRecord) (i : option (gmap string string))
  : BackendRecord :=
  {| Namespace := Namespace b; Name := Name b; UID := UID b;
     DeletionTimestamp := DeletionTimestamp b; Finalizers := Finalizers b;
     Spec := Spec b;
     Status := {| BackendAddr := BackendAddr (Status b);
                  InjectedInfo := i;
                  Conditions := Conditions (Status b) |} |}.

Definition set_Status (b : BackendRecord) (s : BackendRecordStatus) : BackendRecord :=
  {| Namespace := Namespace b; Name := Name b; UID := UID b;
     DeletionTimestamp := DeletionTimestamp b; Finalizers := Finalizers b;
     Spec := Spec b; Status := s |}.

Definition set_Finalizers (b : BackendRecord) (f : list string) : BackendRecord :=
  {| Namespace := Namespace b; Name := Name b; UID := UID b;
     DeletionTimestamp := DeletionTimestamp b; Finalizers := f;
     Spec := Spec b; Status := Status b |}.

End lbcfapi.

Module apicore.

Definition EventTypeNormal : string := "Normal".
Definition EventTypeWarning : string := "Warning".

(** Pods, services and nodes are passed to the driver as they are read. *)
Record Pod := { pod_Namespace : string; pod_Name : string; pod_IP : string }.

Record Service := { svc_Namespace : string; svc_Name : string; svc_ClusterIP : string }.

Record NodeAddress := { addr_Type : string; addr_Address : string }.

Record Node := { node_Name : string; node_Addresses : list NodeAddress }.

End apicore.

(** ** The webhook protocol ([webhooks]) *)

Module webhooks.

(** Modelled from the spec: the literal status strings and hook names. *)
Definition StatusSucc : string := "Succ".
Definition StatusFail : string := "Fail".
Definition StatusRunning : string := "Running".

Definition GenerateBackendAddr : string := "generateBackendAddr".
Definition EnsureBackend : string := "ensureBackend".
Definition DeregBackend : string := "deregBackend".

Record RequestForRetryHooks := {
  RecordID : string;
  RetryID : string
}.

Record PodBackendInGenerateAddrRequest := {
  Pod : apicore.Pod;
  pod_Port : Z
}.

Record ServiceBackendInGenerateAddrRequest := {
  Service : apicore.Service;
  svc_Port : Z;
  NodeName : string;
  NodeAddresses : list apicore.NodeAddress
}.

Record GenerateBackendAddrRequest := {
  gen_Retry : RequestForRetryHooks;
  gen_LBInfo : string;
  gen_LBAttributes : option (gmap string string);
  PodBackend : option PodBackendInGenerateAddrRequest;
  ServiceBackend : option ServiceBackendInGenerateAddrRequest
}.

Record GenerateBackendAddrResponse := {
  gen_Status : string;
  gen_Msg : string;
  gen_MinRetryDelayInSeconds : Z;
  gen_BackendAddr : string
}.

Record BackendOperationRequest := {
  op_Retry : RequestForRetryHooks;
  op_LBInfo : string;
  op_BackendAddr : string;
  op_Parameters : option (gmap string string);
  op_InjectedInfo : option (gmap string string)
}.

Record BackendOperationResponse := {
  op_Status : string;
  op_Msg : string;
  op_MinRetryDelayInSeconds : Z;
  rsp_InjectedInfo : option (gmap string string)
}.

End webhooks.

(** ** [util]: verdicts, helpers and the webhook client *)

Module util.

Import lbcfapi.

(** Constants of the package whose values the sources at hand do not fix. *)
Class Defaults := {
  DefaultRetryInterval : Z;
  DefaultEnsurePeriod : Z;
  SystemDriverPrefix : string;
  SystemNamespace : string
}.

Definition Second : Z := 1000000000.

(** Modelled from the spec: the verdict of one reconcile, [SyncResult], is
    missing. One constructor per verdict of §4.1. *)
Inductive SyncResult :=
  | SuccResult
  | ErrorResult (err : error)
  | FailResult (delay : Z)
  | AsyncResult (delay : Z)
  | PeriodicResult (period : Z).

(** Modelled from the spec: [CalculateRetryInterval] is missing; it returns
    the larger of the driver's delay, in seconds, and the default floor. *)
Definition CalculateRetryInterval `{Defaults} (userValueInSeconds : Z) : Z :=
  Z.max (userValueInSeconds * Second) DefaultRetryInterval.

(** Modelled from the spec: [GetDuration] is missing; the periodic cadence is
    the larger of the configured period and the default. *)
Definition GetDuration (cfg : Z) (defaultValue : Z) : Z :=
  Z.max cfg defaultValue.

(** Modelled from the spec: [GetDriverNamespace] is missing; a driver whose
    name carries the system marker lives in the system namespace, any other
    in the namespace of the record. *)
Definition GetDriverNamespace `{Defaults} (driverName namespace : string) : string :=
  if go.HasPrefix driverName SystemDriverPrefix then SystemNamespace else namespace.

(** Modelled from the spec: [HasFinalizer] is missing; membership in the
    ordered set of finalizers. *)
Definition HasFinalizer (all : list string) (expect : string) : bool :=
  bool_decide (expect ∈ all).

(** Modelled from the spec: [RemoveFinalizer] is missing; the finalizers with
    the given sentinel stripped. *)
Definition RemoveFinalizer (all : list string) (toDelete : string) : list string :=
  filter (λ f, f ≠ toDelete) all.

(** Modelled from the spec: [AddBackendCondition] is missing; the upsert
    rule of §4.5. A condition of the same type is replaced, keeping its
    transition time when the status is unchanged; a new type is appended. *)
Fixpoint upsertCondition (conds : list BackendRecordCondition)
    (c : BackendRecordCondition) : list BackendRecordCondition :=
  match conds with
  | [] => [c]
  | x :: rest =>
      if decide (cond_Type x = cond_Type c) then
        (if decide (cond_Status x = cond_Status c) then
           {| cond_Type := cond_Type c; cond_Status := cond_Status c;
              LastTransitionTime := LastTransitionTime x;
              Reason := Reason c; Message := Message c |}
         else c) :: rest
      else x :: upsertCondition rest c
  end.

Definition AddBackendCondition (beStatus : BackendRecordStatus)
    (expectCondition : BackendRecordCondition) : BackendRecordStatus :=
  {| BackendAddr := BackendAddr beStatus;
     InjectedInfo := InjectedInfo beStatus;
     Conditions := upsertCondition (Conditions beStatus) expectCondition |}.

(** *** [path.Clean] and [path.Join] of the Go standard library *)

(** The lexical processing of [path.Clean] on the components between
    slashes: empty components and [.] vanish, [..] removes the component
    before it, stays in front of a relative path that has nothing left to
    remove, and vanishes at the root. [out] is the cleaned prefix, reversed. *)
Fixpoint cleanComponents (rooted : bool) (out : list string) (comps : list string)
    : list string :=
  match comps with
  | [] => rev out
  | c :: rest =>
      if decide (c = "") then cleanComponents rooted out rest
      else if decide (c = ".") then cleanComponents rooted out rest
      else if decide (c = "..") then
        match out with
        | [] => if rooted then cleanComponents rooted [] rest
                else cleanComponents rooted [".."] rest
        | o :: out' =>
            if decide (o = "..") then cleanComponents rooted (".." :: out) rest
            else cleanComponents rooted out' rest
        end
      else cleanComponents rooted (c :: out) rest
  end.

Definition path_Clean (p : string) : string :=
  if decide (p = "") then "."
  else
    let rooted := go.HasPrefix p "/" in
    let body := go.join "/" (cleanComponents rooted [] (go.Split p go.slash)) in
    let r := if rooted then "/" +:+ body else body in
    if decide (r = "") then "." else r.

(** [path.Join]: empty elements are ignored, the rest joined by slashes and
    cleaned; no non-empty element gives the empty string. *)
Definition path_Join (elem : list string) : string :=
  match filter (λ e, e ≠ "") elem with
  | [] => ""
  | es => path_Clean (go.join "/" es)
  end.

(** *** The webhook client *)

(** [url.URL]: the fields [callWebhook] and [URL.String] touch. *)
Record URL := {
  Scheme : string;
  Opaque : string;
  Host : string;
  Path : string;
  RawPath : string;
  RawQuery : string;
  Fragment : string
}.

Definition set_Path (u : URL) (p : string) : URL :=
  {| Scheme := Scheme u; Opaque := Opaque u; Host := Host u; Path := p;
     RawPath := RawPath u; RawQuery := RawQuery u; Fragment := Fragment u |}.

(** What [gorequest]'s [EndBytes] hands back. *)
Record HttpReply := {
  errs : list error;
  StatusCode : Z;
  body : string
}.

Definition StatusOK : Z := 200.

(** The libraries and the network under [callWebhook], for a payload type
    [P] and a response type [R]: [net/url], the round trip of a POST with a
    timeout, and [encoding/json]'s decoding into a response value. *)
Record HttpEnv (P R : Type) := {
  url_Parse : string → result URL;
  url_String : URL → string;
  EndBytes : Z → string → P → HttpReply;
  json_Unmarshal : string → R → result R
}.
Arguments url_Parse {P R}.
Arguments url_String {P R}.
Arguments EndBytes {P R}.
Arguments json_Unmarshal {P R}.

(** The loop over [driver.Spec.Webhooks]: the timeout of the first entry
    of that name, the zero duration when there is none. *)
Fixpoint hookTimeout (hooks : list WebhookConfig) (webHookName : string) : Z :=
  match hooks with
  | [] => 0
  | h :: rest =>
      if decide (hook_Name h = webHookName) then hook_Timeout h
      else hookTimeout rest webHookName
  end.

Definition fmt_errs (es : list error) : string :=
  "[" +:+ go.join " " (go.msg <$> es) +:+ "]".

Definition fmt_d (n : Z) : string := pretty n.

Section callWebhook.
Context {P R : Type} (env : HttpEnv P R).

(** [callWebhook]; the response the Go function fills in through its last
    argument is returned next to a nil error. Logging is left out. *)
Definition callWebhook (driver : LoadBalancerDriver) (webHookName : string)
    (payload : P) (rsp : R) : result R :=
  match url_Parse env (Url (drv_Spec driver)) with
  | inl err => inl (go.Errorf ("invalid url: " +:+ go.msg err))
  | inr u =>
      let u := set_Path u (path_Join [webHookName]) in
      let timeout := hookTimeout (Webhooks (drv_Spec driver)) webHookName in
      let reply := EndBytes env timeout (url_String env u) payload in
      if decide (0 < length (errs reply))%nat then
        inl (go.Errorf ("webhook err: " +:+ fmt_errs (errs reply)))
      else if decide (StatusCode reply ≠ StatusOK) then
        inl (go.Errorf ("http status code: " +:+ fmt_d (StatusCode reply)
                        +:+ ", body: " +:+ body reply))
      else
        match json_Unmarshal env (body reply) rsp with
        | inl err =>
            inl (go.Errorf ("decode webhook response err: " +:+ go.msg err
                            +:+ ", raw: " +:+ body reply))
        | inr rsp' => inr rsp'
        end
  end.
End callWebhook.

(** The [WebhookInvoker] interface, with the methods the backend controller
    calls. *)
Record WebhookInvoker := {
  CallGenerateBackendAddr :
    LoadBalancerDriver → webhooks.GenerateBackendAddrRequest →
    result webhooks.GenerateBackendAddrResponse;
  CallEnsureBackend :
    LoadBalancerDriver → webhooks.BackendOperationRequest →
    result webhooks.BackendOperationResponse;
  CallDeregisterBackend :
    LoadBalancerDriver → webhooks.BackendOperationRequest →
    result webhooks.BackendOperationResponse
}.

Definition emptyGenerateRsp : webhooks.GenerateBackendAddrResponse :=
  {| webhooks.gen_Status := ""; webhooks.gen_Msg := "";
     webhooks.gen_MinRetryDelayInSeconds := 0; webhooks.gen_BackendAddr := "" |}.

Definition emptyOperationRsp : webhooks.BackendOperationResponse :=
  {| webhooks.op_Status := ""; webhooks.op_Msg := "";
     webhooks.op_MinRetryDelayInSeconds := 0; webhooks.rsp_InjectedInfo := None |}.

(** [WebhookInvokerImpl]: every method is [callWebhook] on its hook name,
    starting from the zero response. *)
Definition WebhookInvokerImpl
    (genEnv : HttpEnv webhooks.GenerateBackendAddrRequest
                      webhooks.GenerateBackendAddrResponse)
    (opEnv : HttpEnv webhooks.BackendOperationRequest
                     webhooks.BackendOperationResponse) : WebhookInvoker :=
  {| CallGenerateBackendAddr driver req :=
       callWebhook genEnv driver webhooks.GenerateBackendAddr req emptyGenerateRsp;
     CallEnsureBackend driver req :=
       callWebhook opEnv driver webhooks.EnsureBackend req emptyOperationRsp;
     CallDeregisterBackend driver req :=
       callWebhook opEnv driver webhooks.DeregBackend req emptyOperationRsp |}.

End util.

(** ** The backend controller *)

Module lbcfcontroller.

Import lbcfapi util.

(** What one reconcile does to the outside, in the order it does it. *)
Inductive Effect :=
  | RegistryStore (key name : string)
  | RegistryDelete (key : string)
  | Event (object : BackendRecord) (eventtype reason message : string)
  | HookGenerateBackendAddr (driver : LoadBalancerDriver)
      (req : webhooks.GenerateBackendAddrRequest)
  | HookEnsureBackend (driver : LoadBalancerDriver)
      (req : webhooks.BackendOperationRequest)
  | HookDeregisterBackend (driver : LoadBalancerDriver)
      (req : webhooks.BackendOperationRequest)
  | UpdateStatus (namespace : string) (record : BackendRecord)
  | Update (namespace : string) (record : BackendRecord).

(** The mutable surroundings of the controller: the [sync.Map] of records
    being deregistered, everything done so far, the source of
    [uuid.NewUUID] and the clock of [v1.Now]. *)
Record World := {
  inProgressDeleting : gmap string string;
  trace : list Effect;
  uuids : nat → string;
  drawn : nat;
  clock : Z
}.

Definition M (A : Type) : Type := World → A * World.

#[export] Instance M_ret : MRet M := λ A a w, (a, w).
#[export] Instance M_bind : MBind M :=
  λ A B f m w, let '(a, w') := m w in f a w'.

Definition emit (e : Effect) : M unit :=
  λ w, (tt, {| inProgressDeleting := inProgressDeleting w;
               trace := trace w ++ [e];
               uuids := uuids w; drawn := drawn w; clock := clock w |}).

Definition NewUUID : M string :=
  λ w, (uuids w (drawn w),
        {| inProgressDeleting := inProgressDeleting w; trace := trace w;
           uuids := uuids w; drawn := S (drawn w); clock := clock w |}).

Definition Now : M Z := λ w, (clock w, w).

Definition registryStore (key name : string) : M unit :=
  λ w, (tt, {| inProgressDeleting := <[key := name]> (inProgressDeleting w);
               trace := trace w ++ [RegistryStore key name];
               uuids := uuids w; drawn := drawn w; clock := clock w |}).

Definition registryDelete (key : string) : M unit :=
  λ w, (tt, {| inProgressDeleting := delete key (inProgressDeleting w);
               trace := trace w ++ [RegistryDelete key];
               uuids := uuids w; drawn := drawn w; clock := clock w |}).

Definition registryLoad (key : string) : M (option string) :=
  λ w, (inProgressDeleting w !! key, w).

(** The [backendController] struct. Listers read a snapshot; the client's
    writes and the invoker's calls answer with what the API server and the
    driver say, and are recorded in the trace by the methods below.
    [eventRecorder] and [inProgressDeleting] are in the [World]. *)
Record backendController := {
  client_UpdateStatus : string → BackendRecord → option error;
  client_Update : string → BackendRecord → option error;
  brLister : string → string → result BackendRecord;
  driverLister : string → string → result LoadBalancerDriver;
  podLister : string → string → result apicore.Pod;
  svcLister : string → string → result apicore.Service;
  nodeLister : string → result apicore.Node;
  webhookInvoker : WebhookInvoker
}.

Section controller.
Context `{Defaults} (c : backendController).

Definition Eventf (object : BackendRecord) (eventtype reason message : string)
    : M unit :=
  emit (Event object eventtype reason message).

Definition UpdateStatus_ (namespace : string) (r : BackendRecord) : M (option error) :=
  _ ← emit (UpdateStatus namespace r); mret (client_UpdateStatus c namespace r).

Definition Update_ (namespace : string) (r : BackendRecord) : M (option error) :=
  _ ← emit (Update namespace r); mret (client_Update c namespace r).

Definition registryKey (backend : BackendRecord) : string :=
  LBInfo (Spec backend) +:+ "|" +:+ BackendAddr (Status backend).

Definition storeDeletingBackend (backend : BackendRecord) : M unit :=
  let key := registryKey backend in
  registryStore key (Name backend).

Definition removeDeletingRecord (backend : BackendRecord) : M unit :=
  let key := registryKey backend in
  registryDelete key.

Definition sameAddrDeleting (backend : BackendRecord) : M (string * bool) :=
  let key := registryKey backend in
  value ← registryLoad key;
  match value with
  | Some name => mret (name, true)
  | None => mret ("", false)
  end.

Definition retrieveDriverFailed (backend : BackendRecord) (err : error) : error :=
  go.Errorf ("retrieve driver " +:+ go.quote (LBDriver (Spec backend))
             +:+ " for BackendRecord " +:+ Name backend
             +:+ " failed: " +:+ go.msg err).

Definition getDriver (backend : BackendRecord) : result LoadBalancerDriver :=
  driverLister c
    (GetDriverNamespace (LBDriver (Spec backend)) (Namespace backend))
    (LBDriver (Spec backend)).

(** [info] is [*backend.Spec.PodBackendInfo], not nil where this is called. *)
Definition generatePodAddr (backend : BackendRecord) (info : PodBackendInfo)
    (driver : LoadBalancerDriver)
    : M (result webhooks.GenerateBackendAddrResponse) :=
  match podLister c (Namespace backend) (lbcfapi.pod_Name info) with
  | inl err => mret (inl err)
  | inr pod =>
      retryID ← NewUUID;
      let req :=
        {| webhooks.gen_Retry :=
             {| webhooks.RecordID := "generateBackendAddr(" +:+ UID backend +:+ ")";
                webhooks.RetryID := retryID |};
           webhooks.gen_LBInfo := LBInfo (Spec backend);
           webhooks.gen_LBAttributes := LBAttributes (Spec backend);
           webhooks.PodBackend :=
             Some {| webhooks.Pod := pod;
                     webhooks.pod_Port := lbcfapi.pod_Port info |};
           webhooks.ServiceBackend := None |} in
      _ ← emit (HookGenerateBackendAddr driver req);
      mret (CallGenerateBackendAddr (webhookInvoker c) driver req)
  end.

(** [info] is [*backend.Spec.ServiceBackendInfo], not nil where this is
    called. *)
Definition generateServiceAddr (backend : BackendRecord)
    (info : ServiceBackendInfo) (driver : LoadBalancerDriver)
    : M (result webhooks.GenerateBackendAddrResponse) :=
  match nodeLister c (svc_NodeName info) with
  | inl err => mret (inl err)
  | inr node =>
      match svcLister c (Namespace backend) (lbcfapi.svc_Name info) with
      | inl err => mret (inl err)
      | inr svc =>
          retryID ← NewUUID;
          let req :=
            {| webhooks.gen_Retry :=
                 {| webhooks.RecordID :=
                      "generateBackendAddr(" +:+ UID backend +:+ ")";
                    webhooks.RetryID := retryID |};
               webhooks.gen_LBInfo := LBInfo (Spec backend);
               webhooks.gen_LBAttributes := LBAttributes (Spec backend);
               webhooks.PodBackend := None;
               webhooks.ServiceBackend :=
                 Some {| webhooks.Service := svc;
                         webhooks.svc_Port := lbcfapi.svc_Port info;
                         webhooks.NodeName := apicore.node_Name node;
                         webhooks.NodeAddresses := apicore.node_Addresses node |} |} in
          _ ← emit (HookGenerateBackendAddr driver req);
          mret (CallGenerateBackendAddr (webhookInvoker c) driver req)
      end
  end.

(** [addr] is [*backend.Spec.StaticAddr], not nil where this is called. *)
Definition generateStaticAddr (backend : BackendRecord) (addr : string)
    : webhooks.GenerateBackendAddrResponse * option error :=
  ({| webhooks.gen_Status := webhooks.StatusSucc;
      webhooks.gen_Msg := "";
      webhooks.gen_MinRetryDelayInSeconds := 0;
      webhooks.gen_BackendAddr := addr |}, None).

(** The [switch rsp.Status] that ends [generateBackendAddr]. *)
Definition generateBackendAddr_switch (backend : BackendRecord)
    (rsp : webhooks.GenerateBackendAddrResponse) : M SyncResult :=
  if decide (webhooks.gen_Status rsp = webhooks.StatusSucc) then
    let cpy := backend in
    let cpy := set_BackendAddr cpy (webhooks.gen_BackendAddr rsp) in
    err ← UpdateStatus_ (Namespace cpy) cpy;
    match err with
    | Some err =>
        _ ← Eventf backend apicore.EventTypeWarning "FailedGenerateAddr"
              ("update status failed: " +:+ go.msg err);
        mret (ErrorResult err)
    | None =>
        _ ← Eventf backend apicore.EventTypeNormal "SuccGenerateAddr"
              ("addr: " +:+ webhooks.gen_BackendAddr rsp);
        mret SuccResult
    end
  else if decide (webhooks.gen_Status rsp = webhooks.StatusFail) then
    _ ← Eventf backend apicore.EventTypeWarning "FailedGenerateAddr"
          ("msg: " +:+ webhooks.gen_Msg rsp);
    mret (FailResult (CalculateRetryInterval (webhooks.gen_MinRetryDelayInSeconds rsp)))
  else if decide (webhooks.gen_Status rsp = webhooks.StatusRunning) then
    _ ← Eventf backend apicore.EventTypeNormal "RunningGenerateAddr"
          ("msg: " +:+ webhooks.gen_Msg rsp);
    let delay := CalculateRetryInterval (webhooks.gen_MinRetryDelayInSeconds rsp) in
    mret (AsyncResult delay)
  else
    _ ← Eventf backend apicore.EventTypeWarning "InvalidGenerateAddr"
          ("unsupported status: " +:+ webhooks.gen_Status rsp
           +:+ ", msg: " +:+ webhooks.gen_Msg rsp);
    mret (ErrorResult (go.Errorf ("unknown status " +:+ go.quote (webhooks.gen_Status rsp)))).

Definition generateBackendAddr (backend : BackendRecord) : M SyncResult :=
  match getDriver backend with
  | inl err => mret (ErrorResult (retrieveDriverFailed backend err))
  | inr driver =>
      match PodBackendInfo_ (Spec backend) with
      | Some info =>
          r ← generatePodAddr backend info driver;
          match r with
          | inl err => mret (ErrorResult err)
          | inr rsp => generateBackendAddr_switch backend rsp
          end
      | None =>
          match ServiceBackendInfo_ (Spec backend) with
          | Some info =>
              r ← generateServiceAddr backend info driver;
              match r with
              | inl err => mret (ErrorResult err)
              | inr rsp => generateBackendAddr_switch backend rsp
              end
          | None =>
              match StaticAddr (Spec backend) with
              | Some addr =>
                  let rsp := fst (generateStaticAddr backend addr) in
                  generateBackendAddr_switch backend rsp
              | None => mret (ErrorResult (go.Errorf "unknown backend type"))
              end
          end
      end
  end.

Definition operationRequest (operation : string) (backend : BackendRecord)
    (retryID : string) : webhooks.BackendOperationRequest :=
  {| webhooks.op_Retry :=
       {| webhooks.RecordID := operation +:+ "(" +:+ UID backend +:+ ")";
          webhooks.RetryID := retryID |};
     webhooks.op_LBInfo := LBInfo (Spec backend);
     webhooks.op_BackendAddr := BackendAddr (Status backend);
     webhooks.op_Parameters := Parameters (Spec backend);
     webhooks.op_InjectedInfo := InjectedInfo (Status backend) |}.

Definition ensureBackend (backend : BackendRecord) : M SyncResult :=
  '(name, deleting) ← sameAddrDeleting backend;
  if deleting : bool then
    _ ← Eventf backend apicore.EventTypeNormal "DelayedEnsureBackend"
          ("ensureBackend will start once " +:+ name +:+ " is finished");
    mret (AsyncResult (CalculateRetryInterval 0))
  else
  match getDriver backend with
  | inl err => mret (ErrorResult (retrieveDriverFailed backend err))
  | inr driver =>
      retryID ← NewUUID;
      let req := operationRequest "ensureBackend" backend retryID in
      _ ← emit (HookEnsureBackend driver req);
      match CallEnsureBackend (webhookInvoker c) driver req with
      | inl err => mret (ErrorResult err)
      | inr rsp =>
          if decide (webhooks.op_Status rsp = webhooks.StatusSucc) then
            let backend :=
              if decide (0 < go.len_map (webhooks.rsp_InjectedInfo rsp))%nat
              then set_InjectedInfo backend (webhooks.rsp_InjectedInfo rsp)
              else backend in
            now ← Now;
            let backend :=
              set_Status backend
                (AddBackendCondition (Status backend)
                   {| cond_Type := BackendRegistered;
                      cond_Status := ConditionTrue;
                      LastTransitionTime := now;
                      Reason := "";
                      Message := webhooks.op_Msg rsp |}) in
            err ← UpdateStatus_ (Namespace backend) backend;
            match err with
            | Some err =>
                _ ← Eventf backend apicore.EventTypeWarning "FailedEnsureBackend"
                      ("update status failed: " +:+ go.msg err);
                mret (ErrorResult err)
            | None =>
                _ ← Eventf backend apicore.EventTypeNormal "SuccEnsureBackend"
                      "Successfully ensured backend";
                match EnsurePolicy (Spec backend) with
                | Some policy =>
                    if decide (Policy policy = PolicyAlways) then
                      mret (PeriodicResult
                              (GetDuration (MinPeriod policy) DefaultEnsurePeriod))
                    else mret SuccResult
                | None => mret SuccResult
                end
            end
          else if decide (webhooks.op_Status rsp = webhooks.StatusFail) then
            now ← Now;
            let backend :=
              set_Status backend
                (AddBackendCondition (Status backend)
                   {| cond_Type := BackendRegistered;
                      cond_Status := ConditionFalse;
                      LastTransitionTime := now;
                      Reason := ReasonOperationFailed;
                      Message := webhooks.op_Msg rsp |}) in
            err ← UpdateStatus_ (Namespace backend) backend;
            match err with
            | Some err =>
                _ ← Eventf backend apicore.EventTypeWarning "FailedEnsureBackend"
                      ("update status failed: " +:+ go.msg err);
                mret (ErrorResult err)
            | None =>
                _ ← Eventf backend apicore.EventTypeWarning "FailedEnsureBackend"
                      ("msg: " +:+ webhooks.op_Msg rsp);
                mret (FailResult
                        (CalculateRetryInterval (webhooks.op_MinRetryDelayInSeconds rsp)))
            end
          else if decide (webhooks.op_Status rsp = webhooks.StatusRunning) then
            _ ← Eventf backend apicore.EventTypeNormal "RunningEnsureBackend"
                  ("msg: " +:+ webhooks.op_Msg rsp);
            let delay :=
              CalculateRetryInterval (webhooks.op_MinRetryDelayInSeconds rsp) in
            mret (AsyncResult delay)
          else
            _ ← Eventf backend apicore.EventTypeWarning "InvalidEnsureBackend"
                  ("unsupported status: " +:+ webhooks.op_Status rsp
                   +:+ ", msg: " +:+ webhooks.op_Msg rsp);
            mret (ErrorResult
                    (go.Errorf ("unknown status " +:+ go.quote (webhooks.op_Status rsp))))
      end
  end.

Definition removeFinalizer (backend : BackendRecord) : M SyncResult :=
  _ ← removeDeletingRecord backend;
  let backend := backend in
  let backend :=
    set_Finalizers backend
      (RemoveFinalizer (Finalizers backend) FinalizerDeregisterBackend) in
  err ← Update_ (Namespace backend) backend;
  match err with
  | Some err => mret (ErrorResult err)
  | None => mret SuccResult
  end.

Definition deregisterBackend (backend : BackendRecord) : M SyncResult :=
  _ ← storeDeletingBackend backend;
  if decide (BackendAddr (Status backend) = "") then removeFinalizer backend
  else
  match getDriver backend with
  | inl err => mret (ErrorResult (retrieveDriverFailed backend err))
  | inr driver =>
      retryID ← NewUUID;
      let req := operationRequest "deregisterBackend" backend retryID in
      _ ← emit (HookDeregisterBackend driver req);
      match CallDeregisterBackend (webhookInvoker c) driver req with
      | inl err => mret (ErrorResult err)
      | inr rsp =>
          if decide (webhooks.op_Status rsp = webhooks.StatusSucc) then
            removeFinalizer backend
          else if decide (webhooks.op_Status rsp = webhooks.StatusFail) then
            _ ← Eventf backend apicore.EventTypeWarning "FailedDeregister"
                  ("msg: " +:+ webhooks.op_Msg rsp);
            mret (FailResult
                    (CalculateRetryInterval (webhooks.op_MinRetryDelayInSeconds rsp)))
          else if decide (webhooks.op_Status rsp = webhooks.StatusRunning) then
            _ ← Eventf backend apicore.EventTypeNormal "RunningDeregister"
                  ("msg: " +:+ webhooks.op_Msg rsp);
            let delay :=
              CalculateRetryInterval (webhooks.op_MinRetryDelayInSeconds rsp) in
            mret (AsyncResult delay)
          else
            _ ← Eventf backend apicore.EventTypeWarning "InvalidDeregister"
                  ("unsupported status: " +:+ webhooks.op_Status rsp
                   +:+ ", msg: " +:+ webhooks.op_Msg rsp);
            mret (ErrorResult
                    (go.Errorf ("unknown status " +:+ go.quote (webhooks.op_Status rsp))))
      end
  end.

Definition syncBackendRecord (key : string) : M SyncResult :=
  match SplitMetaNamespaceKey key with
  | inl err => mret (ErrorResult err)
  | inr (namespace, name) =>
      match brLister c namespace name with
      | inl err =>
          if IsNotFound (Some err) then mret SuccResult
          else mret (ErrorResult err)
      | inr backend =>
          match DeletionTimestamp backend with
          | Some _ =>
              if negb (HasFinalizer (Finalizers backend) FinalizerDeregisterBackend)
              then mret SuccResult
              else deregisterBackend backend
          | None =>
              if decide (BackendAddr (Status backend) = "")
              then generateBackendAddr backend
              else ensureBackend backend
          end
      end
  end.

End controller.

End lbcfcontroller.

(** ** Observing a reconcile *)

Module observe.

Import lbcfapi util lbcfcontroller.

(** What a method appended to the trace, and what it returned. *)
Definition effects {A : Type} (m : M A) (w : World) : list Effect :=
  drop (length (trace w)) (trace (snd (m w))).

Definition verdict {A : Type} (m : M A) (w : World) : A := fst (m w).

Definition isHookCall (e : Effect) : bool :=
  match e with
  | HookGenerateBackendAddr _ _ | HookEnsureBackend _ _
  | HookDeregisterBackend _ _ => true
  | _ => false
  end.

(** The record an effect submits to the API server, if it is a write. *)
Definition written (e : Effect) : option BackendRecord :=
  match e with
  | UpdateStatus _ r | Update _ r => Some r
  | _ => None
  end.

Definition isWrite (e : Effect) : bool := bool_decide (is_Some (written e)).

(** The response the generate path acts on came from the driver, called in
    this reconcile, or is the static one made up locally. *)
Definition generatedBy (c : backendController) (backend : BackendRecord)
    (t : list Effect) (rsp : webhooks.GenerateBackendAddrResponse) : Prop :=
  (∃ driver req,
      HookGenerateBackendAddr driver req ∈ t
      ∧ CallGenerateBackendAddr (webhookInvoker c) driver req = inr rsp)
  ∨ (∃ addr,
        StaticAddr (Spec backend) = Some addr
        ∧ rsp = fst (generateStaticAddr backend addr)).

(** A write that submits the record without the deregister-backend
    finalizer it was read with. *)
Definition removesFinalizer (backend : BackendRecord) (e : Effect) : Prop :=
  ∃ r, written e = Some r
       ∧ FinalizerDeregisterBackend ∈ Finalizers backend
       ∧ FinalizerDeregisterBackend ∉ Finalizers r.

(** The reply [callWebhook] acts on when the driver's URL parses to [u]. *)
Definition replyOf {P R : Type} (env : HttpEnv P R) (driver : LoadBalancerDriver)
    (webHookName : string) (payload : P) (u : URL) : HttpReply :=
  EndBytes env (hookTimeout (Webhooks (drv_Spec driver)) webHookName)
    (url_String env (set_Path u (path_Join [webHookName]))) payload.

(** The error contract of the webhook client read with "non-2xx": once the
    URL parses, an error is returned exactly on a transport error, on a
    status outside 200..299, or on a body that does not decode. *)
Definition failsExactlyOutside2xx {P R : Type} (env : HttpEnv P R)
    (driver : LoadBalancerDriver) (webHookName : string) (payload : P) (rsp : R)
    : Prop :=
  ∀ u, url_Parse env (Url (drv_Spec driver)) = inr u →
    let reply := replyOf env driver webHookName payload u in
    (∃ e, callWebhook env driver webHookName payload rsp = inl e)
    ↔ (errs reply ≠ []
       ∨ ¬ (200 ≤ StatusCode reply < 300)
       ∨ ∃ e, json_Unmarshal env (body reply) rsp = inl e).

End observe.

(** ** Further observations *)

From Stdlib Require Import Sorted.

Module outcome.

Import lbcfapi util lbcfcontroller observe.

(** [strings.Count] of a one-byte separator. *)
Fixpoint countByte (sep : Ascii.ascii) (s : string) : nat :=
  match s with
  | EmptyString => 0%nat
  | String ch rest =>
      if decide (ch = sep) then S (countByte sep rest) else countByte sep rest
  end.

(** The API server took the write: the client call it stands for returned a
    nil error. *)
Definition accepted (c : backendController) (e : Effect) : Prop :=
  match e with
  | UpdateStatus namespace r => client_UpdateStatus c namespace r = None
  | Update namespace r => client_Update c namespace r = None
  | _ => False
  end.

(** The condition the ensure path hands to [AddBackendCondition]. *)
Definition registeredCondition (status reason message : string) (now : Z)
    : BackendRecordCondition :=
  {| cond_Type := BackendRegistered; cond_Status := status;
     LastTransitionTime := now; Reason := reason; Message := message |}.

(** The request every ensure and deregister call is made with. *)
Definition echoes (operation : string) (backend : BackendRecord)
    (req : webhooks.BackendOperationRequest) : Prop :=
  webhooks.RecordID (webhooks.op_Retry req)
    = operation +:+ "(" +:+ UID backend +:+ ")"
  ∧ webhooks.op_LBInfo req = LBInfo (Spec backend)
  ∧ webhooks.op_BackendAddr req = BackendAddr (Status backend)
  ∧ webhooks.op_Parameters req = Parameters (Spec backend)
  ∧ webhooks.op_InjectedInfo req = InjectedInfo (Status backend).

(** The place of an effect in the course of a reconcile: the registry entry
    is stored, the driver called, the registry entry deleted, the record
    written, an event emitted. *)
Definition rank (e : Effect) : nat :=
  match e with
  | RegistryStore _ _ => 0
  | HookGenerateBackendAddr _ _ | HookEnsureBackend _ _
  | HookDeregisterBackend _ _ => 1
  | RegistryDelete _ => 2
  | UpdateStatus _ _ | Update _ _ => 3
  | Event _ _ _ _ => 4
  end%nat.

(** [newBackendController]: the controller made of what it is given, and
    the registry it starts with, [new(sync.Map)], which is empty. *)
Definition newBackendController
    (updateStatus update : string → BackendRecord → option error)
    (brLister : string → string → result BackendRecord)
    (driverLister : string → string → result LoadBalancerDriver)
    (podLister : string → string → result apicore.Pod)
    (svcLister : string → string → result apicore.Service)
    (nodeLister : string → result apicore.Node)
    (invoker : WebhookInvoker) : backendController * gmap string string :=
  ({| client_UpdateStatus := updateStatus;
      client_Update := update;
      lbcfcontroller.brLister := brLister;
      lbcfcontroller.driverLister := driverLister;
      lbcfcontroller.podLister := podLister;
      lbcfcontroller.svcLister := svcLister;
      lbcfcontroller.nodeLister := nodeLister;
      webhookInvoker := invoker |}, ∅).

(** The world a process starts in: the registry of the new controller and
    nothing done yet. *)
Definition startWorld (registry : gmap string string) (uuids : nat → string)
    (clock : Z) : World :=
  {| inProgressDeleting := registry; trace := []; lbcfcontroller.uuids := uuids;
     drawn := 0; lbcfcontroller.clock := clock |}.

End outcome.

(** ** A small cluster to run the controller on *)

Module scenario.

Import lbcfapi util lbcfcontroller.

Definition defaults : Defaults :=
  {| DefaultRetryInterval := 10 * Second;
     DefaultEnsurePeriod := 60 * Second;
     SystemDriverPrefix := "lbcf-";
     SystemNamespace := "kube-system" |}.

Definition driver : LoadBalancerDriver :=
  {| drv_Namespace := "default"; drv_Name := "drv";
     drv_Spec := {| Url := "http://lb.example/api";
                    Webhooks := [ {| hook_Name := "ensureBackend";
                                     hook_Timeout := 5 * Second |} ] |} |}.

Definition spec (static : option string) (policy : option EnsurePolicyConfig)
    : BackendRecordSpec :=
  {| LBDriver := "drv"; LBInfo := "lb1"; LBAttributes := None;
     Parameters := None; PodBackendInfo_ := None; ServiceBackendInfo_ := None;
     StaticAddr := static; EnsurePolicy := policy |}.

Definition record (name : string) (deleted : option Z) (finalizers : list string)
    (sp : BackendRecordSpec) (addr : string) : BackendRecord :=
  {| Namespace := "default"; Name := name; UID := "uid-" +:+ name;
     DeletionTimestamp := deleted; Finalizers := finalizers; Spec := sp;
     Status := {| BackendAddr := addr; InjectedInfo := None; Conditions := [] |} |}.

(** A fresh record with a static address, not yet generated. *)
Definition fresh : BackendRecord :=
  record "fresh" None [FinalizerDeregisterBackend] (spec (Some "10.0.0.1:80") None) "".

(** A registered record that is re-ensured periodically. *)
Definition steady : BackendRecord :=
  record "steady" None [FinalizerDeregisterBackend]
    (spec None (Some {| Policy := PolicyAlways; MinPeriod := 30 * Second |}))
    "1.2.3.4:8080".

(** A record being deleted, and a new one on the same address. *)
Definition leaving : BackendRecord :=
  record "leaving" (Some 100) [FinalizerDeregisterBackend] (spec None None) "1.1.1.1".

Definition arriving : BackendRecord :=
  record "arriving" None [FinalizerDeregisterBackend] (spec None None) "1.1.1.1".

(** A record deleted before it ever got an address. *)
Definition unborn : BackendRecord :=
  record "unborn" (Some 100) [FinalizerDeregisterBackend] (spec None None) "".

(** A record deleted whose finalizer is already gone. *)
Definition released : BackendRecord :=
  record "released" (Some 100) [] (spec None None) "1.2.3.4:80".

(** A record that names a pod, a service and a static address at once. *)
Definition crowded : BackendRecord :=
  record "crowded" None []
    {| LBDriver := "drv"; LBInfo := "lb1"; LBAttributes := None;
       Parameters := None;
       PodBackendInfo_ := Some {| lbcfapi.pod_Name := "web-0"; lbcfapi.pod_Port := 80 |};
       ServiceBackendInfo_ :=
         Some {| lbcfapi.svc_Name := "web"; lbcfapi.svc_Port := 80;
                 svc_NodeName := "node-1" |};
       StaticAddr := Some "10.0.0.1:80"; EnsurePolicy := None |}
    "".

Definition records : list BackendRecord :=
  [fresh; steady; leaving; arriving; unborn; released; crowded].

Definition notFoundErr (what : string) : error :=
  go.Error true (what +:+ " not found").

Definition getRecord (namespace name : string) : result BackendRecord :=
  match filter (λ r, Namespace r = namespace ∧ Name r = name) records with
  | r :: _ => inr r
  | [] => inl (notFoundErr name)
  end.

Definition getDriver (namespace name : string) : result LoadBalancerDriver :=
  if decide (namespace = "default" ∧ name = "drv") then inr driver
  else inl (notFoundErr name).

Definition getPod (namespace name : string) : result apicore.Pod :=
  if decide (namespace = "default" ∧ name = "web-0")
  then inr {| apicore.pod_Namespace := "default"; apicore.pod_Name := "web-0";
              apicore.pod_IP := "10.1.0.7" |}
  else inl (notFoundErr name).

Definition getService (namespace name : string) : result apicore.Service :=
  inl (notFoundErr name).

Definition getNode (name : string) : result apicore.Node :=
  inl (notFoundErr name).

(** A driver that answers every hook with the given status. *)
Definition answering (status : string) (info : option (gmap string string))
    : WebhookInvoker :=
  {| CallGenerateBackendAddr _ _ :=
       inr {| webhooks.gen_Status := status; webhooks.gen_Msg := "";
              webhooks.gen_MinRetryDelayInSeconds := 0;
              webhooks.gen_BackendAddr := "10.1.0.7:80" |};
     CallEnsureBackend _ _ :=
       inr {| webhooks.op_Status := status; webhooks.op_Msg := "";
              webhooks.op_MinRetryDelayInSeconds := 15;
              webhooks.rsp_InjectedInfo := info |};
     CallDeregisterBackend _ _ :=
       inr {| webhooks.op_Status := status; webhooks.op_Msg := "";
              webhooks.op_MinRetryDelayInSeconds := 15;
              webhooks.rsp_InjectedInfo := None |} |}.

(** A driver that cannot be reached. *)
Definition unreachable : WebhookInvoker :=
  {| CallGenerateBackendAddr _ _ := inl (go.Errorf "webhook err: [timeout]");
     CallEnsureBackend _ _ := inl (go.Errorf "webhook err: [timeout]");
     CallDeregisterBackend _ _ := inl (go.Errorf "webhook err: [timeout]") |}.

Definition controller (invoker : WebhookInvoker) (writeErr : option error)
    : backendController :=
  {| client_UpdateStatus _ _ := writeErr;
     client_Update _ _ := writeErr;
     brLister := getRecord;
     driverLister := getDriver;
     podLister := getPod;
     svcLister := getService;
     nodeLister := getNode;
     webhookInvoker := invoker |}.

Definition world (registry : gmap string string) : World :=
  {| inProgressDeleting := registry; trace := [];
     uuids := λ n, "retry-" +:+ pretty n; drawn := 0; clock := 1000 |}.

(** *** A driver behind HTTP *)

(** [strings.Cut] at a one-byte separator, keeping the separator on the
    right-hand side. *)
Fixpoint cutBefore (sep : Ascii.ascii) (s : string) : string * string :=
  match s with
  | EmptyString => ("", "")
  | String ch rest =>
      if decide (ch = sep) then ("", s)
      else let '(l, r) := cutBefore sep rest in (String ch l, r)
  end.

Definition colon : Ascii.ascii := Ascii.ascii_of_nat 58.

Fixpoint skip (n : nat) (s : string) : string :=
  match n, s with
  | S n', String _ rest => skip n' rest
  | _, _ => s
  end.

(** [url.Parse] on the URLs these examples use, [scheme://host] followed by
    an optional path that starts with a slash; anything else is refused. *)
Definition parseURL (raw : string) : result URL :=
  let '(scheme, rest) := cutBefore colon raw in
  if go.HasPrefix rest "://" then
    let '(host, path) := cutBefore go.slash (skip 3 rest) in
    if decide (scheme = "" ∨ host = "") then
      inl (go.Errorf ("parse " +:+ raw +:+ ": unsupported"))
    else
      inr {| Scheme := scheme; Opaque := ""; Host := host; Path := path;
             RawPath := ""; RawQuery := ""; Fragment := "" |}
  else inl (go.Errorf ("parse " +:+ raw +:+ ": unsupported")).

(** [URL.String] on such URLs: a slash is put between the host and a path
    that does not start with one. *)
Definition printURL (u : URL) : string :=
  Scheme u +:+ "://" +:+ Host u
  +:+ (if decide (Path u ≠ "" ∧ go.HasPrefix (Path u) "/" = false)
       then "/" else "")
  +:+ Path u.

Definition reply (code : Z) (content : string) : HttpReply :=
  {| errs := []; StatusCode := code; body := content |}.

(** A server that answers on the listed URLs and with 404 elsewhere. *)
Fixpoint serve (routes : list (string * HttpReply)) (url : string) : HttpReply :=
  match routes with
  | [] => reply 404 "not found"
  | (u, r) :: rest => if decide (u = url) then r else serve rest url
  end.

(** [encoding/json]'s [Unmarshal] into a response, on the bodies these
    examples use: a JSON object whose members are strings without escapes,
    with any white space between the tokens. Member names are matched to the
    fields without regard to case, unknown members are ignored, a repeated
    member overwrites, and anything after the object is an error. Input that
    is not JSON is refused as the library refuses it; JSON with numbers,
    nested values or escaped characters is refused by this model only. *)
Definition code (ch : Ascii.ascii) : nat := Ascii.nat_of_ascii ch.

Definition isSpace (ch : Ascii.ascii) : bool :=
  (code ch =? 32)%nat || (code ch =? 9)%nat || (code ch =? 10)%nat
  || (code ch =? 13)%nat.

Fixpoint skipSpace (s : string) : string :=
  match s with
  | String ch rest => if isSpace ch then skipSpace rest else s
  | EmptyString => s
  end.

(** The characters up to the closing quote, and what follows it. *)
Fixpoint readString (s : string) : option (string * string) :=
  match s with
  | EmptyString => None
  | String ch rest =>
      if (code ch =? 34)%nat then Some ("", rest)
      else if (code ch =? 92)%nat || (code ch <? 32)%nat then None
      else match readString rest with
           | Some (v, rest') => Some (String ch v, rest')
           | None => None
           end
  end.

Definition readQuoted (s : string) : option (string * string) :=
  match skipSpace s with
  | String ch rest => if (code ch =? 34)%nat then readString rest else None
  | EmptyString => None
  end.

(** The members after the opening brace, up to and including the closing
    one; [fuel] bounds the number of members by the length of the input. *)
Fixpoint readMembers (fuel : nat) (s : string)
    : option (list (string * string) * string) :=
  match fuel with
  | O => None
  | S fuel' =>
      match readQuoted s with
      | None => None
      | Some (k, rest) =>
          match skipSpace rest with
          | String colon' rest1 =>
              if (code colon' =? 58)%nat then
                match readQuoted rest1 with
                | None => None
                | Some (v, rest2) =>
                    match skipSpace rest2 with
                    | String sep rest3 =>
                        if (code sep =? 44)%nat then
                          match readMembers fuel' rest3 with
                          | Some (ms, rest4) => Some ((k, v) :: ms, rest4)
                          | None => None
                          end
                        else if (code sep =? 125)%nat then Some ([(k, v)], rest3)
                        else None
                    | EmptyString => None
                    end
                end
              else None
          | EmptyString => None
          end
      end
  end.

Definition readObject (s : string) : option (list (string * string)) :=
  match skipSpace s with
  | String open rest =>
      if (code open =? 123)%nat then
        match skipSpace rest with
        | String close rest' =>
            if (code close =? 125)%nat then
              (if decide (skipSpace rest' = "") then Some [] else None)
            else
              match readMembers (String.length s) rest with
              | Some (ms, rest'') =>
                  if decide (skipSpace rest'' = "") then Some ms else None
              | None => None
              end
        | EmptyString => None
        end
      else None
  | EmptyString => None
  end.

Definition lower (ch : Ascii.ascii) : Ascii.ascii :=
  if (65 <=? code ch)%nat && (code ch <=? 90)%nat
  then Ascii.ascii_of_nat (code ch + 32) else ch.

Fixpoint toLower (s : string) : string :=
  match s with
  | EmptyString => EmptyString
  | String ch rest => String (lower ch) (toLower rest)
  end.

Definition setMember (rsp : webhooks.BackendOperationResponse)
    (member : string * string) : webhooks.BackendOperationResponse :=
  let '(k, v) := member in
  if decide (toLower k = "status") then
    {| webhooks.op_Status := v;
       webhooks.op_Msg := webhooks.op_Msg rsp;
       webhooks.op_MinRetryDelayInSeconds :=
         webhooks.op_MinRetryDelayInSeconds rsp;
       webhooks.rsp_InjectedInfo := webhooks.rsp_InjectedInfo rsp |}
  else if decide (toLower k = "msg") then
    {| webhooks.op_Status := webhooks.op_Status rsp;
       webhooks.op_Msg := v;
       webhooks.op_MinRetryDelayInSeconds :=
         webhooks.op_MinRetryDelayInSeconds rsp;
       webhooks.rsp_InjectedInfo := webhooks.rsp_InjectedInfo rsp |}
  else rsp.

Definition decodeStatus (content : string) (rsp : webhooks.BackendOperationResponse)
    : result webhooks.BackendOperationResponse :=
  match readObject content with
  | Some members => inr (foldl setMember rsp members)
  | None => inl (go.Errorf "invalid character in JSON input")
  end.

(** The body [{"status":"<status>"}]. *)
Definition jsonStatus (status : string) : string :=
  "{" +:+ go.dquote +:+ "status" +:+ go.dquote +:+ ":"
  +:+ go.dquote +:+ status +:+ go.dquote +:+ "}".

Definition http (routes : list (string * HttpReply))
    : HttpEnv webhooks.BackendOperationRequest webhooks.BackendOperationResponse :=
  {| url_Parse := parseURL;
     url_String := printURL;
     EndBytes _ url _ := serve routes url;
     json_Unmarshal := decodeStatus |}.

Definition request : webhooks.BackendOperationRequest :=
  lbcfcontroller.operationRequest "ensureBackend" arriving "retry-0".

End scenario.

(** * Properties of the reconciler *)

Import lbcfapi util lbcfcontroller observe.

(** ** Running the monad *)

Ltac run :=
  unfold verdict, effects, mbind, M_bind, mret, M_ret, emit, Eventf,
    UpdateStatus_, Update_, registryStore, registryDelete, registryLoad,
    NewUUID, Now; simpl.

Ltac cases :=
  repeat match goal with
  | |- context [match ?x with _ => _ end] =>
      lazymatch x with
      | context [match _ with _ => _ end] => fail
      | _ => destruct x eqn:?; simpl
      end
  end.

Ltac traces :=
  repeat rewrite <- app_assoc; rewrite ?drop_app_length, ?drop_all; simpl.

(** ** The scenarios of the specification, run on the model *)

(** A fresh record with a static address: the address is written, the
    verdict is [Success], no driver is called. *)
Example static_happy_path :
  let ctrl := scenario.controller scenario.unreachable None in
  @syncBackendRecord scenario.defaults ctrl "default/fresh" (scenario.world ∅)
  = (SuccResult,
     {| inProgressDeleting := ∅;
        trace := [UpdateStatus "default"
                    (set_BackendAddr scenario.fresh "10.0.0.1:80");
                  Event scenario.fresh apicore.EventTypeNormal "SuccGenerateAddr"
                    "addr: 10.0.0.1:80"];
        uuids := uuids (scenario.world ∅); drawn := 0; clock := 1000 |}).
Proof. vm_compute. reflexivity. Qed.

(** An ensure the driver is still working on: [Async] after the delay the
    driver asked for, and nothing is written. *)
Example ensure_running :
  let ctrl := scenario.controller (scenario.answering "Running" None) None in
  verdict (@syncBackendRecord scenario.defaults ctrl "default/arriving")
    (scenario.world ∅) = AsyncResult (15 * Second)
  ∧ filter (λ e, isWrite e = true)
      (effects (@syncBackendRecord scenario.defaults ctrl "default/arriving")
         (scenario.world ∅)) = [].
Proof. split; vm_compute; reflexivity. Qed.

(** A record is being deregistered, the driver answers [Running]; a second
    record on the same address is then held back without a driver call. *)
Example same_address_guarded :
  let ctrl := scenario.controller (scenario.answering "Running" None) None in
  let w1 := snd (@syncBackendRecord scenario.defaults ctrl "default/leaving"
                   (scenario.world ∅)) in
  inProgressDeleting w1 !! "lb1|1.1.1.1" = Some "leaving"
  ∧ verdict (@syncBackendRecord scenario.defaults ctrl "default/arriving") w1
    = AsyncResult (10 * Second)
  ∧ filter (λ e, isHookCall e = true)
      (effects (@syncBackendRecord scenario.defaults ctrl "default/arriving") w1)
    = [].
Proof. repeat split; vm_compute; reflexivity. Qed.

(** Deregistration succeeds: the registry entry comes and goes, the
    finalizer is stripped by an [Update], the verdict is [Success]. *)
Example deregister_happy_path :
  let ctrl := scenario.controller (scenario.answering "Succ" None) None in
  let w1 := snd (@syncBackendRecord scenario.defaults ctrl "default/leaving"
                   (scenario.world ∅)) in
  verdict (@syncBackendRecord scenario.defaults ctrl "default/leaving")
    (scenario.world ∅) = SuccResult
  ∧ inProgressDeleting w1 !! "lb1|1.1.1.1" = None
  ∧ trace w1
    = [RegistryStore "lb1|1.1.1.1" "leaving";
       HookDeregisterBackend scenario.driver
         (operationRequest "deregisterBackend" scenario.leaving "retry-0");
       RegistryDelete "lb1|1.1.1.1";
       Update "default" (set_Finalizers scenario.leaving [])].
Proof. repeat split; vm_compute; reflexivity. Qed.

(** A record deleted before it had an address: no driver call. *)
Example deregister_without_address :
  let ctrl := scenario.controller scenario.unreachable None in
  verdict (@syncBackendRecord scenario.defaults ctrl "default/unborn")
    (scenario.world ∅) = SuccResult
  ∧ effects (@syncBackendRecord scenario.defaults ctrl "default/unborn")
      (scenario.world ∅)
    = [RegistryStore "lb1|" "unborn"; RegistryDelete "lb1|";
       Update "default" (set_Finalizers scenario.unborn [])].
Proof. split; vm_compute; reflexivity. Qed.

(** A key with two slashes and a lister that fails otherwise are errors. *)
Lemma syncBackendRecord_errors `{Defaults} (c : backendController)
    (key : string) (w : World) :
  (∀ err, SplitMetaNamespaceKey key = inl err →
     syncBackendRecord c key w = (ErrorResult err, w))
  ∧ (∀ namespace name err,
       SplitMetaNamespaceKey key = inr (namespace, name) →
       brLister c namespace name = inl err → go.notFound err = false →
       syncBackendRecord c key w = (ErrorResult err, w)).
Proof.
  unfold syncBackendRecord. split.
  - by intros err ->.
  - intros namespace name err -> -> Hnf. simpl. by rewrite Hnf.
Qed.

(** ** The same-address guard of the ensure path *)

(** C4: a record on the ensure path whose ["LBInfo|BackendAddr"] key is in
    the in-flight-delete registry emits one [DelayedEnsureBackend] event
    naming the stored record and returns
    [Async (CalculateRetryInterval 0)]; the event is all that happens: no
    driver call, no write, no change to the registry. *)
Theorem ensureBackend_delayed `{Defaults} (c : backendController)
    (backend : BackendRecord) (w : World) (name : string) :
  inProgressDeleting w
    !! (LBInfo (Spec backend) +:+ "|" +:+ BackendAddr (Status backend))
    = Some name →
  verdict (ensureBackend c backend) w = AsyncResult (CalculateRetryInterval 0)
  ∧ effects (ensureBackend c backend) w
    = [Event backend apicore.EventTypeNormal "DelayedEnsureBackend"
         ("ensureBackend will start once " +:+ name +:+ " is finished")]
  ∧ inProgressDeleting (snd (ensureBackend c backend w)) = inProgressDeleting w.
Proof.
  intros Hreg.
  unfold ensureBackend, sameAddrDeleting, registryKey. run.
  rewrite Hreg. simpl. split; [done|]. split; [|done].
  apply drop_app_length.
Qed.

Lemma ensureBackend_delayed_witness :
  inProgressDeleting (scenario.world {["lb1|1.1.1.1" := "leaving"]})
    !! (LBInfo (Spec scenario.arriving) +:+ "|"
        +:+ BackendAddr (Status scenario.arriving)) = Some "leaving"
  ∧ verdict (@ensureBackend scenario.defaults
               (scenario.controller scenario.unreachable None) scenario.arriving)
      (scenario.world {["lb1|1.1.1.1" := "leaving"]})
    = AsyncResult 10000000000.
Proof.
  split; [vm_compute; reflexivity|].
  apply (@ensureBackend_delayed scenario.defaults
           (scenario.controller scenario.unreachable None) scenario.arriving
           (scenario.world {["lb1|1.1.1.1" := "leaving"]}) "leaving").
  vm_compute; reflexivity.
Defined.

(** ** The dispatch of [syncBackendRecord] *)

(** C1: for a key that names a record, [syncBackendRecord] is decided by
    this dispatch on what the lister returns: not found gives [Success]; a
    deletion timestamp without the deregister-backend finalizer gives
    [Success]; a deletion timestamp with the finalizer runs the deregister
    path; no deletion timestamp and an empty [Status.BackendAddr] runs the
    generate path; otherwise the ensure path runs. In the first two cases
    nothing else happens. *)
Theorem syncBackendRecord_dispatch `{Defaults} (c : backendController)
    (key namespace name : string) (w : World) :
  SplitMetaNamespaceKey key = inr (namespace, name) →
  (∀ err, brLister c namespace name = inl err → IsNotFound (Some err) = true →
     syncBackendRecord c key w = (SuccResult, w))
  ∧ (∀ backend, brLister c namespace name = inr backend →
       match DeletionTimestamp backend with
       | Some _ =>
           (FinalizerDeregisterBackend ∉ Finalizers backend →
              syncBackendRecord c key w = (SuccResult, w))
           ∧ (FinalizerDeregisterBackend ∈ Finalizers backend →
                syncBackendRecord c key w = deregisterBackend c backend w)
       | None =>
           (BackendAddr (Status backend) = "" →
              syncBackendRecord c key w = generateBackendAddr c backend w)
           ∧ (BackendAddr (Status backend) ≠ "" →
                syncBackendRecord c key w = ensureBackend c backend w)
       end).
Proof.
  intros Hkey. unfold syncBackendRecord. rewrite Hkey. split.
  - intros err -> Hnf. by rewrite Hnf.
  - intros backend ->. unfold HasFinalizer.
    destruct (DeletionTimestamp backend); split; intros Hc.
    + by rewrite bool_decide_eq_false_2.
    + by rewrite bool_decide_eq_true_2.
    + by rewrite decide_True.
    + by rewrite decide_False.
Qed.

Lemma syncBackendRecord_dispatch_witness :
  SplitMetaNamespaceKey "default/released" = inr ("default", "released")
  ∧ @syncBackendRecord scenario.defaults
      (scenario.controller scenario.unreachable None) "default/released"
      (scenario.world ∅)
    = (SuccResult, scenario.world ∅).
Proof.
  split; [vm_compute; reflexivity|].
  destruct (@syncBackendRecord_dispatch scenario.defaults
              (scenario.controller scenario.unreachable None)
              "default/released" "default" "released" (scenario.world ∅))
    as [_ Hfound]; [vm_compute; reflexivity|].
  specialize (Hfound scenario.released).
  destruct Hfound as [Habsent _]; [vm_compute; reflexivity|].
  apply Habsent. vm_compute. intros Hin. inversion Hin.
Defined.

(** ** Finalizer removal *)

Lemma RemoveFinalizer_strips (all : list string) (s : string) :
  s ∉ RemoveFinalizer all s.
Proof. unfold RemoveFinalizer. rewrite list_elem_of_filter. tauto. Qed.

(** C5: [removeFinalizer] first deletes the record's key from the
    in-flight-delete registry, then submits, by a full [Update] and not a
    status update, a copy of the record that differs only in [Finalizers],
    from which the deregister-backend sentinel has been stripped. The
    verdict is [Error] when that write fails and [Success] otherwise; in
    both cases the registry no longer holds the key when it returns. *)
Theorem removeFinalizer_steps `{Defaults} (c : backendController)
    (backend : BackendRecord) (w : World) :
  let key := LBInfo (Spec backend) +:+ "|" +:+ BackendAddr (Status backend) in
  let stripped :=
    set_Finalizers backend
      (RemoveFinalizer (Finalizers backend) FinalizerDeregisterBackend) in
  let w' := snd (removeFinalizer c backend w) in
  effects (removeFinalizer c backend) w
    = [RegistryDelete key; Update (Namespace backend) stripped]
  ∧ (FinalizerDeregisterBackend ∉ Finalizers stripped)
  ∧ inProgressDeleting w' = delete key (inProgressDeleting w)
  ∧ inProgressDeleting w' !! key = None
  ∧ verdict (removeFinalizer c backend) w
    = match client_Update c (Namespace backend) stripped with
      | Some err => ErrorResult err
      | None => SuccResult
      end.
Proof.
  unfold removeFinalizer, removeDeletingRecord, registryKey. run.
  assert (Hfin : FinalizerDeregisterBackend
                 ∉ RemoveFinalizer (Finalizers backend) FinalizerDeregisterBackend)
    by apply RemoveFinalizer_strips.
  destruct (client_Update c _ _); simpl;
    rewrite <- app_assoc, drop_app_length, lookup_delete_eq; done.
Qed.

(** ** What each path writes *)

Section paths.
Context `{Defaults} (c : backendController).

Lemma ensureBackend_writes (backend : BackendRecord) (w : World) (e : Effect)
    (r : BackendRecord) :
  e ∈ effects (ensureBackend c backend) w → written e = Some r →
  Finalizers r = Finalizers backend
  ∧ BackendAddr (Status r) = BackendAddr (Status backend).
Proof.
  unfold ensureBackend, sameAddrDeleting. run.
  destruct (inProgressDeleting w !! registryKey backend) eqn:Hreg; simpl.
  all: cases; traces.
  all: intros Hin Hw; set_unfold; destruct_or?; simplify_eq/=; done.
Qed.

Lemma generateBackendAddr_writes (backend : BackendRecord) (w : World)
    (e : Effect) (r : BackendRecord) :
  e ∈ effects (generateBackendAddr c backend) w → written e = Some r →
  ∃ rsp,
    generatedBy c backend (effects (generateBackendAddr c backend) w) rsp
    ∧ webhooks.gen_Status rsp = webhooks.StatusSucc
    ∧ e = UpdateStatus (Namespace backend)
            (set_BackendAddr backend (webhooks.gen_BackendAddr rsp)).
Proof.
  unfold generatedBy, generateBackendAddr, generateBackendAddr_switch,
    generatePodAddr, generateServiceAddr. run.
  cases; traces.
  all: intros Hin Hw; set_unfold; destruct_or?; simplify_eq/=.
  all: eexists; split;
    [first [left; do 2 eexists; split; [|eassumption]; auto; fail
           | right; eexists; split; reflexivity]
    | split; [done|reflexivity]].
Qed.

Lemma deregisterBackend_writes (backend : BackendRecord) (w : World)
    (e : Effect) (r : BackendRecord) :
  e ∈ effects (deregisterBackend c backend) w → written e = Some r →
  e = Update (Namespace backend)
        (set_Finalizers backend
           (RemoveFinalizer (Finalizers backend) FinalizerDeregisterBackend))
  ∧ (BackendAddr (Status backend) = ""
     ∨ ∃ driver req rsp,
         HookDeregisterBackend driver req ∈ effects (deregisterBackend c backend) w
         ∧ CallDeregisterBackend (webhookInvoker c) driver req = inr rsp
         ∧ webhooks.op_Status rsp = webhooks.StatusSucc).
Proof.
  unfold deregisterBackend, removeFinalizer, storeDeletingBackend,
    removeDeletingRecord. run.
  cases; traces.
  all: intros Hin Hw; set_unfold; destruct_or?; simplify_eq/=.
  all: split; [reflexivity|]; first [left; assumption | right].
  all: do 3 eexists; split; [|split; [eassumption|assumption]]; auto.
Qed.
End paths.

(** ** The address is monotone *)

Lemma generateBackendAddr_succ_writes `{Defaults} (c : backendController)
    (backend : BackendRecord) (w : World)
    (rsp : webhooks.GenerateBackendAddrResponse) :
  webhooks.gen_Status rsp = webhooks.StatusSucc →
  (∃ d req,
      HookGenerateBackendAddr d req ∈ effects (generateBackendAddr c backend) w
      ∧ CallGenerateBackendAddr (webhookInvoker c) d req = inr rsp)
  ∨ (∃ d addr,
        getDriver c backend = inr d
        ∧ PodBackendInfo_ (Spec backend) = None
        ∧ ServiceBackendInfo_ (Spec backend) = None
        ∧ StaticAddr (Spec backend) = Some addr
        ∧ rsp = fst (generateStaticAddr backend addr)) →
  let r :=
    {| Namespace := Namespace backend; Name := Name backend;
       UID := UID backend; DeletionTimestamp := DeletionTimestamp backend;
       Finalizers := Finalizers backend; Spec := Spec backend;
       Status := {| BackendAddr := webhooks.gen_BackendAddr rsp;
                    InjectedInfo := InjectedInfo (Status backend);
                    Conditions := Conditions (Status backend) |} |} in
  UpdateStatus (Namespace backend) r ∈ effects (generateBackendAddr c backend) w
  ∧ verdict (generateBackendAddr c backend) w
    = match client_UpdateStatus c (Namespace backend) r with
      | Some err => ErrorResult err
      | None => SuccResult
      end.
Proof.
  intros Hsucc Hacted. simpl. revert Hacted.
  unfold generateBackendAddr, generateBackendAddr_switch, generatePodAddr,
    generateServiceAddr, set_BackendAddr. run.
  cases; traces.
  all: intros [(d & req & Hin & Hcall)|(d & addr & Hd & Hp & Hs & Ha & ->)];
    set_unfold; destruct_or?; simplify_eq/=; try congruence.
  all: repeat match goal with
              | H1 : ?x = inr ?a, H2 : ?x = inr ?b |- _ =>
                  rewrite H1 in H2; injection H2 as ->
              | H1 : ?x = Some ?a, H2 : ?x = Some ?b |- _ =>
                  rewrite H1 in H2; injection H2 as ->
              end.
  all: try contradiction.
  all: split; [|reflexivity]; auto.
Qed.

(** C2: [Status.BackendAddr] is monotone. In every reconcile of a record,
    a record read with a non-empty address is only ever written back with
    that address, whatever the verdict. A write submits another address than
    the one read only on the generate path, entered with an empty address:
    it is the status update of that path and the new address is the
    [BackendAddr] of the response the path acted on. And the generate path
    does assign it: when the response it acts on, the driver's answer to the
    call of this reconcile or the static one, has status [Succ], it submits
    the status update of the record with [Status.BackendAddr] set to the
    response's [BackendAddr] and nothing else changed, and returns [Success]
    if that update is accepted. *)
Theorem backendAddr_monotone `{Defaults} (c : backendController)
    (key namespace name : string) (backend : BackendRecord) (w : World) :
  SplitMetaNamespaceKey key = inr (namespace, name) →
  brLister c namespace name = inr backend →
  (BackendAddr (Status backend) ≠ "" →
     ∀ e r, e ∈ effects (syncBackendRecord c key) w → written e = Some r →
       BackendAddr (Status r) = BackendAddr (Status backend))
  ∧ (∀ e r, e ∈ effects (syncBackendRecord c key) w → written e = Some r →
       BackendAddr (Status r) ≠ BackendAddr (Status backend) →
       DeletionTimestamp backend = None
       ∧ BackendAddr (Status backend) = ""
       ∧ syncBackendRecord c key w = generateBackendAddr c backend w
       ∧ ∃ rsp,
           generatedBy c backend (effects (syncBackendRecord c key) w) rsp
           ∧ webhooks.gen_Status rsp = webhooks.StatusSucc
           ∧ BackendAddr (Status r) = webhooks.gen_BackendAddr rsp
           ∧ e = UpdateStatus (Namespace backend)
                   (set_BackendAddr backend (webhooks.gen_BackendAddr rsp)))
  ∧ (DeletionTimestamp backend = None → BackendAddr (Status backend) = "" →
     ∀ rsp,
       webhooks.gen_Status rsp = webhooks.StatusSucc →
       (∃ d req,
           HookGenerateBackendAddr d req ∈ effects (syncBackendRecord c key) w
           ∧ CallGenerateBackendAddr (webhookInvoker c) d req = inr rsp)
       ∨ (∃ d addr,
             getDriver c backend = inr d
             ∧ PodBackendInfo_ (Spec backend) = None
             ∧ ServiceBackendInfo_ (Spec backend) = None
             ∧ StaticAddr (Spec backend) = Some addr
             ∧ rsp = fst (generateStaticAddr backend addr)) →
       let r :=
         {| Namespace := Namespace backend; Name := Name backend;
            UID := UID backend; DeletionTimestamp := DeletionTimestamp backend;
            Finalizers := Finalizers backend; Spec := Spec backend;
            Status := {| BackendAddr := webhooks.gen_BackendAddr rsp;
                         InjectedInfo := InjectedInfo (Status backend);
                         Conditions := Conditions (Status backend) |} |} in
       UpdateStatus (Namespace backend) r ∈ effects (syncBackendRecord c key) w
       ∧ verdict (syncBackendRecord c key) w
         = match client_UpdateStatus c (Namespace backend) r with
           | Some err => ErrorResult err
           | None => SuccResult
           end).
Proof.
  intros Hkey Hget.
  assert (Hsame : ∀ e r,
    e ∈ effects (syncBackendRecord c key) w → written e = Some r →
    BackendAddr (Status r) ≠ BackendAddr (Status backend) →
    DeletionTimestamp backend = None
    ∧ BackendAddr (Status backend) = ""
    ∧ syncBackendRecord c key w = generateBackendAddr c backend w
    ∧ ∃ rsp,
        generatedBy c backend (effects (syncBackendRecord c key) w) rsp
        ∧ webhooks.gen_Status rsp = webhooks.StatusSucc
        ∧ BackendAddr (Status r) = webhooks.gen_BackendAddr rsp
        ∧ e = UpdateStatus (Namespace backend)
                (set_BackendAddr backend (webhooks.gen_BackendAddr rsp))).
  { intros e r. unfold effects at 1 2.
    unfold syncBackendRecord. rewrite Hkey, Hget.
    destruct (DeletionTimestamp backend) as [ts|].
    - destruct (negb _).
      + unfold mret, M_ret. simpl. rewrite drop_all. by intros ?%elem_of_nil.
      + intros Hin Hw Hne.
        destruct (deregisterBackend_writes c backend w e r Hin Hw) as [-> _].
        simpl in Hw. by simplify_eq.
    - destruct (decide (BackendAddr (Status backend) = "")) as [Hempty|Hfull].
      + intros Hin Hw Hne.
        destruct (generateBackendAddr_writes c backend w e r Hin Hw)
          as (rsp & Hgen & Hsucc & ->).
        simpl in Hw. simplify_eq. eauto 10.
      + intros Hin Hw Hne.
        by destruct (ensureBackend_writes c backend w e r Hin Hw) as [_ ?]. }
  split; [|split; [exact Hsame|]].
  - intros Hfull e r Hin Hw.
    destruct (decide (BackendAddr (Status r) = BackendAddr (Status backend)))
      as [|Hne]; [done|].
    destruct (Hsame e r Hin Hw Hne) as (_ & Hempty & _). done.
  - intros Hts Hempty rsp Hsucc.
    assert (Hsync : syncBackendRecord c key w = generateBackendAddr c backend w).
    { unfold syncBackendRecord. rewrite Hkey, Hget, Hts.
      by rewrite (decide_True _ _ Hempty). }
    unfold verdict, effects. rewrite Hsync. intros Hacted.
    exact (generateBackendAddr_succ_writes c backend w rsp Hsucc Hacted).
Qed.

Lemma backendAddr_monotone_witness :
  let ctrl := scenario.controller (scenario.answering "Succ" None) None in
  let rsp := {| webhooks.gen_Status := "Succ"; webhooks.gen_Msg := "";
                webhooks.gen_MinRetryDelayInSeconds := 0;
                webhooks.gen_BackendAddr := "10.1.0.7:80" |} in
  (SplitMetaNamespaceKey "default/steady" = inr ("default", "steady")
   ∧ brLister ctrl "default" "steady" = inr scenario.steady
   ∧ ∀ e r,
       e ∈ effects (@syncBackendRecord scenario.defaults ctrl "default/steady")
             (scenario.world ∅) →
       written e = Some r → BackendAddr (Status r) = "1.2.3.4:8080")
  ∧ (SplitMetaNamespaceKey "default/crowded" = inr ("default", "crowded")
     ∧ brLister ctrl "default" "crowded" = inr scenario.crowded
     ∧ (∃ d req,
           HookGenerateBackendAddr d req
             ∈ effects (@syncBackendRecord scenario.defaults ctrl
                          "default/crowded") (scenario.world ∅)
           ∧ CallGenerateBackendAddr (webhookInvoker ctrl) d req = inr rsp)
     ∧ UpdateStatus "default" (set_BackendAddr scenario.crowded "10.1.0.7:80")
         ∈ effects (@syncBackendRecord scenario.defaults ctrl "default/crowded")
             (scenario.world ∅)
     ∧ verdict (@syncBackendRecord scenario.defaults ctrl "default/crowded")
         (scenario.world ∅) = SuccResult).
Proof.
  intros ctrl rsp. split.
  - split; [vm_compute; reflexivity|]. split; [vm_compute; reflexivity|].
    destruct (@backendAddr_monotone scenario.defaults ctrl
                "default/steady" "default" "steady" scenario.steady
                (scenario.world ∅)) as [Hkeep _];
      [vm_compute; reflexivity | vm_compute; reflexivity |].
    apply Hkeep. vm_compute. discriminate.
  - assert (Hcalled : ∃ d req,
        HookGenerateBackendAddr d req
          ∈ effects (@syncBackendRecord scenario.defaults ctrl
                       "default/crowded") (scenario.world ∅)
        ∧ CallGenerateBackendAddr (webhookInvoker ctrl) d req = inr rsp).
    { do 2 eexists. split; [vm_compute; apply list_elem_of_here|reflexivity]. }
    split; [vm_compute; reflexivity|]. split; [vm_compute; reflexivity|].
    split; [exact Hcalled|].
    destruct (@backendAddr_monotone scenario.defaults ctrl
                "default/crowded" "default" "crowded" scenario.crowded
                (scenario.world ∅)) as (_ & _ & Hassign);
      [vm_compute; reflexivity | vm_compute; reflexivity |].
    exact (Hassign eq_refl eq_refl rsp eq_refl (or_introl Hcalled)).
Defined.

(** ** The finalizer is removed only after deregistration *)

(** C3: a reconcile that removes the deregister-backend finalizer does so
    on the deregister path, by the [Update] of [removeFinalizer], and either
    [Status.BackendAddr] was empty at entry or the driver's deregister call
    of this reconcile answered [Succ]. When the address is not empty and the
    driver cannot be found, the call fails, or it answers anything but
    [Succ] ([Fail], [Running], an unknown status), the deregister path
    writes nothing, so the finalizer stays. *)
Theorem finalizer_removal_prerequisite `{Defaults} (c : backendController)
    (key namespace name : string) (backend : BackendRecord) (w : World) :
  SplitMetaNamespaceKey key = inr (namespace, name) →
  brLister c namespace name = inr backend →
  (∀ e, e ∈ effects (syncBackendRecord c key) w → removesFinalizer backend e →
     syncBackendRecord c key w = deregisterBackend c backend w
     ∧ e = Update (Namespace backend)
             (set_Finalizers backend
                (RemoveFinalizer (Finalizers backend) FinalizerDeregisterBackend))
     ∧ (BackendAddr (Status backend) = ""
        ∨ ∃ driver req rsp,
            HookDeregisterBackend driver req ∈ effects (syncBackendRecord c key) w
            ∧ CallDeregisterBackend (webhookInvoker c) driver req = inr rsp
            ∧ webhooks.op_Status rsp = webhooks.StatusSucc))
  ∧ (BackendAddr (Status backend) ≠ "" →
     let req := operationRequest "deregisterBackend" backend (uuids w (drawn w)) in
     match getDriver c backend with
     | inl _ => True
     | inr driver =>
         match CallDeregisterBackend (webhookInvoker c) driver req with
         | inl _ => True
         | inr rsp => webhooks.op_Status rsp ≠ webhooks.StatusSucc
         end
     end →
     ∀ e, e ∈ effects (deregisterBackend c backend) w → written e = None).
Proof.
  intros Hkey Hget. split.
  - intros e. unfold effects at 1 2.
    unfold syncBackendRecord. rewrite Hkey, Hget.
    intros Hin (r & Hw & Hhas & Hgone). revert Hin.
    destruct (DeletionTimestamp backend) as [ts|].
    + unfold HasFinalizer. rewrite bool_decide_eq_true_2 by done. simpl.
      intros Hin.
      destruct (deregisterBackend_writes c backend w e r Hin Hw) as [-> Hwhy].
      done.
    + destruct (decide (BackendAddr (Status backend) = "")); intros Hin.
      * destruct (generateBackendAddr_writes c backend w e r Hin Hw)
          as (rsp & _ & _ & ->).
        simpl in Hw. simplify_eq. done.
      * destruct (ensureBackend_writes c backend w e r Hin Hw) as [Hfin _].
        rewrite Hfin in Hgone. done.
  - intros Hfull. simpl.
    unfold deregisterBackend, removeFinalizer, storeDeletingBackend,
      removeDeletingRecord. run.
    rewrite decide_False by done.
    cases; traces.
    all: intros Hout x Hin; set_unfold; destruct_or?; simplify_eq/=; done.
Qed.

Lemma finalizer_removal_prerequisite_witness :
  let ctrl := scenario.controller (scenario.answering "Succ" None) None in
  let e := Update "default" (set_Finalizers scenario.leaving []) in
  SplitMetaNamespaceKey "default/leaving" = inr ("default", "leaving")
  ∧ brLister ctrl "default" "leaving" = inr scenario.leaving
  ∧ e ∈ effects (@syncBackendRecord scenario.defaults ctrl "default/leaving")
          (scenario.world ∅)
  ∧ removesFinalizer scenario.leaving e
  ∧ (BackendAddr (Status scenario.leaving) = ""
     ∨ ∃ driver req rsp,
         HookDeregisterBackend driver req
           ∈ effects (@syncBackendRecord scenario.defaults ctrl "default/leaving")
               (scenario.world ∅)
         ∧ CallDeregisterBackend (webhookInvoker ctrl) driver req = inr rsp
         ∧ webhooks.op_Status rsp = webhooks.StatusSucc).
Proof.
  intros ctrl e.
  assert (Hin : e ∈ effects (@syncBackendRecord scenario.defaults ctrl
                               "default/leaving") (scenario.world ∅)).
  { vm_compute. do 3 apply list_elem_of_further. apply list_elem_of_here. }
  assert (Hrm : removesFinalizer scenario.leaving e).
  { exists (set_Finalizers scenario.leaving []).
    split; [reflexivity|]. split; [apply list_elem_of_here|].
    simpl. apply not_elem_of_nil. }
  split; [vm_compute; reflexivity|]. split; [vm_compute; reflexivity|].
  split; [exact Hin|]. split; [exact Hrm|].
  destruct (@finalizer_removal_prerequisite scenario.defaults ctrl
              "default/leaving" "default" "leaving" scenario.leaving
              (scenario.world ∅)) as [Honly _];
    [vm_compute; reflexivity | vm_compute; reflexivity |].
  destruct (Honly e Hin Hrm) as (_ & _ & Hwhy). exact Hwhy.
Defined.

(** ** Periodic verdicts *)

Section verdicts.
Context `{Defaults} (c : backendController).




End verdicts.



(** ** Injected info on ensure success *)

Lemma upsertCondition_has (conds : list BackendRecordCondition)
    (c : BackendRecordCondition) :
  ∃ c', c' ∈ upsertCondition conds c
        ∧ cond_Type c' = cond_Type c ∧ cond_Status c' = cond_Status c
        ∧ Reason c' = Reason c ∧ Message c' = Message c.
Proof.
  induction conds as [|x rest IH]; simpl.
  - exists c. split; [apply list_elem_of_here|done].
  - destruct (decide (cond_Type x = cond_Type c)).
    + destruct (decide (cond_Status x = cond_Status c)).
      * eexists. split; [apply list_elem_of_here|done].
      * exists c. split; [apply list_elem_of_here|done].
    + destruct IH as (c' & Hin & Hc'). exists c'.
      split; [by apply list_elem_of_further|done].
Qed.

(** C9: when the driver answers an ensure with [Succ], the controller
    submits exactly one write, a status update of a copy of the record in
    which [Status.InjectedInfo] is the response's [InjectedInfo] if that is
    non-empty and the previous value if it is empty or absent. In both cases
    the submitted status carries a [BackendRegistered] condition with status
    [True] and the response's message, and the address is untouched. *)
Theorem ensureBackend_succ_injectedInfo `{Defaults} (c : backendController)
    (backend : BackendRecord) (w : World) (driver : LoadBalancerDriver)
    (rsp : webhooks.BackendOperationResponse) :
  inProgressDeleting w
    !! (LBInfo (Spec backend) +:+ "|" +:+ BackendAddr (Status backend)) = None →
  getDriver c backend = inr driver →
  CallEnsureBackend (webhookInvoker c) driver
    (operationRequest "ensureBackend" backend (uuids w (drawn w))) = inr rsp →
  webhooks.op_Status rsp = webhooks.StatusSucc →
  ∃ r,
    filter (λ e, isWrite e = true) (effects (ensureBackend c backend) w)
      = [UpdateStatus (Namespace backend) r]
    ∧ ((0 < go.len_map (webhooks.rsp_InjectedInfo rsp))%nat →
         InjectedInfo (Status r) = webhooks.rsp_InjectedInfo rsp)
    ∧ (go.len_map (webhooks.rsp_InjectedInfo rsp) = 0%nat →
         InjectedInfo (Status r) = InjectedInfo (Status backend))
    ∧ (∃ cond, cond ∈ Conditions (Status r)
               ∧ cond_Type cond = BackendRegistered
               ∧ cond_Status cond = ConditionTrue
               ∧ Message cond = webhooks.op_Msg rsp)
    ∧ BackendAddr (Status r) = BackendAddr (Status backend)
    ∧ Spec r = Spec backend
    ∧ Finalizers r = Finalizers backend.
Proof.
  intros Hreg Hdrv Hcall Hsucc.
  unfold ensureBackend, sameAddrDeleting, registryKey. run.
  rewrite Hreg. simpl. rewrite Hdrv. simpl. rewrite Hcall.
  rewrite (decide_True _ _ Hsucc).
  destruct (upsertCondition_has
              (Conditions (Status backend))
              {| cond_Type := BackendRegistered; cond_Status := ConditionTrue;
                 LastTransitionTime := clock w; Reason := "";
                 Message := webhooks.op_Msg rsp |})
    as (cond & Hin & Hty & Hst & _ & Hmsg).
  destruct (decide (0 < go.len_map (webhooks.rsp_InjectedInfo rsp))%nat)
    as [Hlen|Hlen]; simpl.
  all: cases; traces.
  all: eexists; split; [reflexivity|]; simpl.
  all: repeat split; try done; try lia; eauto.
Qed.

Lemma ensureBackend_succ_injectedInfo_witness :
  let ctrl := scenario.controller (scenario.answering "Succ" (Some ∅)) None in
  let backend :=
    set_InjectedInfo scenario.arriving (Some {["listener" := "abc"]}) in
  go.len_map (Some ∅) = 0%nat
  ∧ ∃ r,
      filter (λ e, isWrite e = true)
        (effects (@ensureBackend scenario.defaults ctrl backend) (scenario.world ∅))
        = [UpdateStatus "default" r]
      ∧ InjectedInfo (Status r) = Some {["listener" := "abc"]}.
Proof.
  intros ctrl backend. split; [reflexivity|].
  destruct (@ensureBackend_succ_injectedInfo scenario.defaults ctrl backend
              (scenario.world ∅) scenario.driver
              {| webhooks.op_Status := "Succ"; webhooks.op_Msg := "";
                 webhooks.op_MinRetryDelayInSeconds := 15;
                 webhooks.rsp_InjectedInfo := Some ∅ |})
    as (r & Hwrite & _ & Hkeep & _);
    [vm_compute; reflexivity | vm_compute; reflexivity | reflexivity
    | reflexivity |].
  exists r. split; [exact Hwrite|]. apply Hkeep. reflexivity.
Defined.

(** ** The dispatch on the backend source *)

(** C10: once the driver is resolved, the generate path picks its source by
    a fixed precedence: a pod source if [Spec.PodBackendInfo] is set,
    whatever else is; else a service source if [Spec.ServiceBackendInfo] is
    set; else the static address if [Spec.StaticAddr] is set; else the
    verdict is [Error] and nothing happens. At most one driver call is made,
    and its request carries the source that won: a pod and no service under
    a pod source, a service and no pod under a service source, no call at
    all under a static source. *)
Theorem generateBackendAddr_precedence `{Defaults} (c : backendController)
    (backend : BackendRecord) (w : World) :
  (∀ driver, getDriver c backend = inr driver →
   match PodBackendInfo_ (Spec backend), ServiceBackendInfo_ (Spec backend),
         StaticAddr (Spec backend) with
   | Some info, _, _ =>
       generateBackendAddr c backend w
       = (r ← generatePodAddr c backend info driver;
          match r with
          | inl err => mret (ErrorResult err)
          | inr rsp => generateBackendAddr_switch c backend rsp
          end) w
       ∧ ∀ d req, HookGenerateBackendAddr d req
                    ∈ effects (generateBackendAddr c backend) w →
           is_Some (webhooks.PodBackend req) ∧ webhooks.ServiceBackend req = None
   | None, Some info, _ =>
       generateBackendAddr c backend w
       = (r ← generateServiceAddr c backend info driver;
          match r with
          | inl err => mret (ErrorResult err)
          | inr rsp => generateBackendAddr_switch c backend rsp
          end) w
       ∧ ∀ d req, HookGenerateBackendAddr d req
                    ∈ effects (generateBackendAddr c backend) w →
           webhooks.PodBackend req = None ∧ is_Some (webhooks.ServiceBackend req)
   | None, None, Some addr =>
       generateBackendAddr c backend w
       = generateBackendAddr_switch c backend
           (fst (generateStaticAddr backend addr)) w
       ∧ filter (λ e, isHookCall e = true)
           (effects (generateBackendAddr c backend) w) = []
   | None, None, None =>
       generateBackendAddr c backend w
       = (ErrorResult (go.Errorf "unknown backend type"), w)
   end)
  ∧ (length (filter (λ e, isHookCall e = true)
               (effects (generateBackendAddr c backend) w)) ≤ 1)%nat.
Proof.
  split.
  - intros driver Hdrv. unfold generateBackendAddr. rewrite Hdrv.
    destruct (PodBackendInfo_ (Spec backend)) as [pod|];
      [|destruct (ServiceBackendInfo_ (Spec backend)) as [svc|];
        [|destruct (StaticAddr (Spec backend)) as [addr|]]];
      try (split; [reflexivity|]); try reflexivity.
    + unfold generateBackendAddr_switch, generatePodAddr. run.
      cases; traces.
      all: intros d req Hin; set_unfold; destruct_or?; simplify_eq/=; eauto.
    + unfold generateBackendAddr_switch, generateServiceAddr. run.
      cases; traces.
      all: intros d req Hin; set_unfold; destruct_or?; simplify_eq/=; eauto.
    + unfold generateBackendAddr_switch. run.
      cases; traces; reflexivity.
  - unfold generateBackendAddr, generateBackendAddr_switch, generatePodAddr,
      generateServiceAddr. run.
    cases; traces; lia.
Qed.

Lemma generateBackendAddr_precedence_witness :
  let ctrl := scenario.controller (scenario.answering "Succ" None) None in
  @getDriver scenario.defaults ctrl scenario.crowded = inr scenario.driver
  ∧ is_Some (ServiceBackendInfo_ (Spec scenario.crowded))
  ∧ is_Some (StaticAddr (Spec scenario.crowded))
  ∧ ∀ d req,
      HookGenerateBackendAddr d req
        ∈ effects (@generateBackendAddr scenario.defaults ctrl scenario.crowded)
            (scenario.world ∅) →
      is_Some (webhooks.PodBackend req) ∧ webhooks.ServiceBackend req = None.
Proof.
  intros ctrl. split; [vm_compute; reflexivity|].
  split; [eexists; reflexivity|]. split; [eexists; reflexivity|].
  destruct (@generateBackendAddr_precedence scenario.defaults ctrl
              scenario.crowded (scenario.world ∅)) as [Hdispatch _].
  destruct (Hdispatch scenario.driver) as [_ Hpod]; [vm_compute; reflexivity|].
  exact Hpod.
Defined.

(** ** The webhook client *)

Section webhook.
Context {P R : Type} (env : HttpEnv P R).

(** The network is consulted once, at the URL printed from the parsed
    driver URL with its path replaced by the cleaned hook name. *)
Lemma callWebhook_reply (driver : LoadBalancerDriver) (webHookName : string)
    (payload : P) (rsp : R) (u : URL) :
  url_Parse env (Url (drv_Spec driver)) = inr u →
  let reply := replyOf env driver webHookName payload u in
  callWebhook env driver webHookName payload rsp
  = if decide (0 < length (errs reply))%nat then
      inl (go.Errorf ("webhook err: " +:+ fmt_errs (errs reply)))
    else if decide (StatusCode reply ≠ StatusOK) then
      inl (go.Errorf ("http status code: " +:+ fmt_d (StatusCode reply)
                      +:+ ", body: " +:+ body reply))
    else
      match json_Unmarshal env (body reply) rsp with
      | inl err =>
          inl (go.Errorf ("decode webhook response err: " +:+ go.msg err
                          +:+ ", raw: " +:+ body reply))
      | inr rsp' => inr rsp'
      end.
Proof. intros Hparse. unfold callWebhook, replyOf. by rewrite Hparse. Qed.

(** The base path of the driver URL plays no part in the request: the
    reply is the one for the URL with any other path in its place. *)
Lemma replyOf_ignores_base_path (driver : LoadBalancerDriver)
    (webHookName : string) (payload : P) (u : URL) (p : string) :
  replyOf env driver webHookName payload (set_Path u p)
  = replyOf env driver webHookName payload u.
Proof. reflexivity. Qed.
End webhook.

(** C6, at a driver whose URL has a base path: the request for the hook
    [ensureBackend] of the driver at [http://lb.example/api] is not sent to
    [http://lb.example/api/ensureBackend], where a driver serving under
    that base path listens, but to [http://lb.example/ensureBackend]. *)
Theorem callWebhook_drops_base_path :
  Url (drv_Spec scenario.driver) = "http://lb.example/api"
  ∧ callWebhook
      (scenario.http [("http://lb.example/api/ensureBackend",
                       scenario.reply 200 (scenario.jsonStatus "Succ"))])
      scenario.driver webhooks.EnsureBackend scenario.request emptyOperationRsp
    = inl (go.Errorf "http status code: 404, body: not found")
  ∧ ∃ rsp,
      callWebhook
        (scenario.http [("http://lb.example/ensureBackend",
                         scenario.reply 200 (scenario.jsonStatus "Succ"))])
        scenario.driver webhooks.EnsureBackend scenario.request emptyOperationRsp
      = inr rsp
      ∧ webhooks.op_Status rsp = "Succ".
Proof.
  split; [reflexivity|]. split; [vm_compute; reflexivity|].
  eexists. split; vm_compute; reflexivity.
Qed.

(** The example decoder on a few bodies: text that is not JSON is refused,
    an object is read whatever the case of its member names and the white
    space around them, and trailing text is refused. *)
Example decodeStatus_examples :
  (∃ e, scenario.decodeStatus "Succ" emptyOperationRsp = inl e)
  ∧ (∃ e, scenario.decodeStatus "not found" emptyOperationRsp = inl e)
  ∧ (∃ e, scenario.decodeStatus (scenario.jsonStatus "Succ" +:+ "x")
            emptyOperationRsp = inl e)
  ∧ (∃ rsp, scenario.decodeStatus (scenario.jsonStatus "Succ") emptyOperationRsp
            = inr rsp
            ∧ webhooks.op_Status rsp = "Succ")
  ∧ (∃ rsp, scenario.decodeStatus
              (" { " +:+ go.dquote +:+ "Status" +:+ go.dquote +:+ " : "
               +:+ go.dquote +:+ "Running" +:+ go.dquote +:+ " } ")
              emptyOperationRsp = inr rsp
            ∧ webhooks.op_Status rsp = "Running")
  ∧ scenario.decodeStatus "{}" emptyOperationRsp = inr emptyOperationRsp.
Proof.
  repeat split; try (eexists; vm_compute; reflexivity);
    try (eexists; split; vm_compute; reflexivity).
Qed.

(** A reply with status 201, no transport error and the JSON body
    [{"status":"Succ"}], which decodes, is turned into an error: the client
    accepts 200 only. *)
Lemma callWebhook_rejects_201 :
  ¬ failsExactlyOutside2xx
      (scenario.http [("http://lb.example/ensureBackend",
                       scenario.reply 201 (scenario.jsonStatus "Succ"))])
      scenario.driver webhooks.EnsureBackend scenario.request emptyOperationRsp.
Proof.
  intros Hclaim.
  pose (u := {| Scheme := "http"; Opaque := ""; Host := "lb.example";
                Path := "/api"; RawPath := ""; RawQuery := "";
                Fragment := "" |}).
  assert (Hparse : scenario.parseURL (Url (drv_Spec scenario.driver)) = inr u)
    by (vm_compute; reflexivity).
  destruct (Hclaim u Hparse) as [Hwhy _].
  destruct Hwhy as [Herrs|[Hcode|[e He]]].
  - eexists. vm_compute. reflexivity.
  - apply Herrs. reflexivity.
  - apply Hcode. split; [vm_compute; discriminate | vm_compute; reflexivity].
  - vm_compute in He. discriminate.
Qed.

(** C7, with the status test the client makes: [callWebhook] returns an
    error exactly when the driver URL does not parse, the round trip
    reports errors, the status code is not 200, or the body does not decode;
    the error says which and why. Otherwise it returns the decoded response.
    An error of the invoker, on any of the three paths, is the verdict
    [Error] of the reconcile with that very error. *)
Theorem callWebhook_errors {P R : Type} (env : HttpEnv P R)
    (driver : LoadBalancerDriver) (webHookName : string) (payload : P) (rsp : R) :
  ((∃ e, callWebhook env driver webHookName payload rsp = inl e)
   ↔ ((∃ e, url_Parse env (Url (drv_Spec driver)) = inl e)
      ∨ ∃ u, url_Parse env (Url (drv_Spec driver)) = inr u
             ∧ (errs (replyOf env driver webHookName payload u) ≠ []
                ∨ StatusCode (replyOf env driver webHookName payload u) ≠ 200
                ∨ ∃ e, json_Unmarshal env
                         (body (replyOf env driver webHookName payload u)) rsp
                       = inl e)))
  ∧ (∀ e, callWebhook env driver webHookName payload rsp = inl e →
       go.notFound e = false
       ∧ ((∃ cause, url_Parse env (Url (drv_Spec driver)) = inl cause
                    ∧ go.msg e = "invalid url: " +:+ go.msg cause)
          ∨ ∃ u, url_Parse env (Url (drv_Spec driver)) = inr u
                 ∧ let reply := replyOf env driver webHookName payload u in
                   go.msg e = "webhook err: " +:+ fmt_errs (errs reply)
                   ∨ go.msg e = "http status code: " +:+ fmt_d (StatusCode reply)
                                +:+ ", body: " +:+ body reply
                   ∨ ∃ cause, json_Unmarshal env (body reply) rsp = inl cause
                              ∧ go.msg e = "decode webhook response err: "
                                           +:+ go.msg cause
                                           +:+ ", raw: " +:+ body reply))
  ∧ (∀ u rsp',
       url_Parse env (Url (drv_Spec driver)) = inr u →
       errs (replyOf env driver webHookName payload u) = [] →
       StatusCode (replyOf env driver webHookName payload u) = 200 →
       json_Unmarshal env (body (replyOf env driver webHookName payload u)) rsp
         = inr rsp' →
       callWebhook env driver webHookName payload rsp = inr rsp')
  ∧ (∀ `{Defaults} (c : backendController) (backend : BackendRecord) (w : World)
       (d : LoadBalancerDriver) (err : error),
       getDriver c backend = inr d →
       (inProgressDeleting w !! registryKey backend = None →
        CallEnsureBackend (webhookInvoker c) d
          (operationRequest "ensureBackend" backend (uuids w (drawn w))) = inl err →
        verdict (ensureBackend c backend) w = ErrorResult err)
       ∧ (BackendAddr (Status backend) ≠ "" →
          CallDeregisterBackend (webhookInvoker c) d
            (operationRequest "deregisterBackend" backend (uuids w (drawn w)))
            = inl err →
          verdict (deregisterBackend c backend) w = ErrorResult err)
       ∧ (∀ d' req,
            HookGenerateBackendAddr d' req
              ∈ effects (generateBackendAddr c backend) w →
            CallGenerateBackendAddr (webhookInvoker c) d' req = inl err →
            verdict (generateBackendAddr c backend) w = ErrorResult err)).
Proof.
  split; [|split; [|split; [|]]].
  - destruct (url_Parse env (Url (drv_Spec driver))) as [cause|u] eqn:Hparse.
    { unfold callWebhook. rewrite Hparse. split; [|by eauto].
      intros _. left. by exists cause. }
    rewrite (callWebhook_reply env driver webHookName payload rsp u Hparse).
    simpl. split.
    + intros [e He]. right. exists u. split; [done|].
      revert He. generalize (replyOf env driver webHookName payload u) as reply.
      intros reply He.
      destruct (decide (0 < length (errs reply))%nat) as [Hlen|Hlen].
      { left. intros Hnil. rewrite Hnil in Hlen. simpl in Hlen. lia. }
      destruct (decide (StatusCode reply ≠ StatusOK)) as [Hcode|Hcode]; [by auto|].
      destruct (json_Unmarshal env (body reply) rsp) as [cause|rsp']; [|done].
      right. right. by exists cause.
    + intros [[e [=]]|(u' & [= <-] & Hwhy)].
      revert Hwhy. generalize (replyOf env driver webHookName payload u) as reply.
      intros reply Hwhy.
      destruct (decide (0 < length (errs reply))%nat) as [Hlen|Hlen]; [by eauto|].
      destruct (decide (StatusCode reply ≠ StatusOK)) as [Hcode|Hcode]; [by eauto|].
      destruct Hwhy as [Hnil|[Hcode'|[e He]]].
      * destruct (errs reply); [done|]. simpl in Hlen. lia.
      * done.
      * rewrite He. by eauto.
  - intros e.
    destruct (url_Parse env (Url (drv_Spec driver))) as [cause|u] eqn:Hparse.
    { unfold callWebhook. rewrite Hparse. intros [= <-]. split; [done|].
      left. by exists cause. }
    rewrite (callWebhook_reply env driver webHookName payload rsp u Hparse).
    simpl. intros He. assert (go.notFound e = false
      ∧ (go.msg e = "webhook err: "
                    +:+ fmt_errs (errs (replyOf env driver webHookName payload u))
         ∨ go.msg e = "http status code: "
                      +:+ fmt_d (StatusCode (replyOf env driver webHookName payload u))
                      +:+ ", body: "
                      +:+ body (replyOf env driver webHookName payload u)
         ∨ ∃ cause,
             json_Unmarshal env
               (body (replyOf env driver webHookName payload u)) rsp = inl cause
             ∧ go.msg e = "decode webhook response err: " +:+ go.msg cause
                          +:+ ", raw: "
                          +:+ body (replyOf env driver webHookName payload u)))
      as [Hnf Hmsg].
    { revert He.
      generalize (replyOf env driver webHookName payload u) as reply.
      intros reply.
      destruct (decide (0 < length (errs reply))%nat); [by intros [= <-]; auto|].
      destruct (decide (StatusCode reply ≠ StatusOK)); [by intros [= <-]; auto|].
      destruct (json_Unmarshal env (body reply) rsp) as [cause|rsp']; [|done].
      intros [= <-]. split; [done|]. right. right. by exists cause. }
    split; [done|]. right. exists u. by split.
  - intros u rsp' Hparse Hnil Hcode Hdec.
    rewrite (callWebhook_reply env driver webHookName payload rsp u Hparse).
    simpl. rewrite Hnil, Hcode, Hdec. reflexivity.
  - intros D c backend w d err Hdrv. split; [|split].
    + intros Hreg Hcall. unfold ensureBackend, sameAddrDeleting. run.
      rewrite Hreg. simpl. rewrite Hdrv. simpl. by rewrite Hcall.
    + intros Hfull Hcall.
      unfold deregisterBackend, storeDeletingBackend. run.
      rewrite decide_False by done. rewrite Hdrv. simpl. by rewrite Hcall.
    + intros d' req.
      unfold generateBackendAddr, generateBackendAddr_switch, generatePodAddr,
        generateServiceAddr. run. rewrite Hdrv.
      cases; traces.
      all: intros Hin Hcall; set_unfold; destruct_or?; simplify_eq/=;
        congruence.
Qed.

Lemma callWebhook_errors_witness :
  StatusCode (scenario.reply 404 "not found") ≠ 200
  ∧ ∃ e, callWebhook (scenario.http []) scenario.driver webhooks.EnsureBackend
           scenario.request emptyOperationRsp = inl e.
Proof.
  split; [discriminate|].
  destruct (callWebhook_errors (scenario.http []) scenario.driver
              webhooks.EnsureBackend scenario.request emptyOperationRsp)
    as [[_ Hif] _].
  apply Hif. right.
  exists {| Scheme := "http"; Opaque := ""; Host := "lb.example";
            Path := "/api"; RawPath := ""; RawQuery := ""; Fragment := "" |}.
  split; [vm_compute; reflexivity|]. right. left. vm_compute. discriminate.
Defined.

(** * Further properties of the controller and of the webhook client *)

Import outcome.

(** ** The in-flight-delete registry *)

(** X1: what [storeDeletingBackend] stores, [sameAddrDeleting] finds: after
    a record is stored, a lookup for any record with the same [LBInfo] and
    [BackendAddr] reports the stored record's name, whatever was stored
    under that key before; lookups for other keys answer as before. *)
Theorem registry_store_lookup (stored other : BackendRecord) (w : World) :
  let w' := snd (storeDeletingBackend stored w) in
  (LBInfo (Spec other) = LBInfo (Spec stored) →
   BackendAddr (Status other) = BackendAddr (Status stored) →
   sameAddrDeleting other w' = ((Name stored, true), w'))
  ∧ (registryKey other ≠ registryKey stored →
     fst (sameAddrDeleting other w') = fst (sameAddrDeleting other w)).
Proof.
  unfold storeDeletingBackend, sameAddrDeleting, registryKey. run. split.
  - intros -> ->. by rewrite lookup_insert_eq.
  - intros Hne. rewrite lookup_insert_ne by congruence.
    by destruct (inProgressDeleting w !! _).
Qed.

Lemma registry_store_lookup_witness :
  LBInfo (Spec scenario.arriving) = LBInfo (Spec scenario.leaving)
  ∧ BackendAddr (Status scenario.arriving) = BackendAddr (Status scenario.leaving)
  ∧ fst (sameAddrDeleting scenario.arriving
           (snd (storeDeletingBackend scenario.leaving (scenario.world ∅))))
    = ("leaving", true).
Proof.
  split; [reflexivity|]. split; [reflexivity|].
  destruct (registry_store_lookup scenario.leaving scenario.arriving
              (scenario.world ∅)) as [Hfound _].
  rewrite Hfound; reflexivity.
Defined.

(** X2: what [removeDeletingRecord] removes is gone: a lookup for any
    record with the same [LBInfo] and [BackendAddr] then answers
    [("", false)], whichever record had stored the entry; removing a key
    that is not there changes nothing, and other keys answer as before. *)
Theorem registry_remove_lookup (removed other : BackendRecord) (w : World) :
  let w' := snd (removeDeletingRecord removed w) in
  (LBInfo (Spec other) = LBInfo (Spec removed) →
   BackendAddr (Status other) = BackendAddr (Status removed) →
   sameAddrDeleting other w' = (("", false), w'))
  ∧ (registryKey other ≠ registryKey removed →
     fst (sameAddrDeleting other w') = fst (sameAddrDeleting other w))
  ∧ (inProgressDeleting w !! registryKey removed = None →
     inProgressDeleting w' = inProgressDeleting w).
Proof.
  unfold removeDeletingRecord, sameAddrDeleting, registryKey. run.
  split; [|split].
  - intros -> ->. by rewrite lookup_delete_eq.
  - intros Hne. rewrite lookup_delete_ne by congruence.
    by destruct (inProgressDeleting w !! _).
  - intros Hnone. by apply delete_id.
Qed.

Lemma registry_remove_lookup_witness :
  let w := snd (storeDeletingBackend scenario.leaving (scenario.world ∅)) in
  LBInfo (Spec scenario.arriving) = LBInfo (Spec scenario.leaving)
  ∧ BackendAddr (Status scenario.arriving) = BackendAddr (Status scenario.leaving)
  ∧ fst (sameAddrDeleting scenario.arriving
           (snd (removeDeletingRecord scenario.leaving w)))
    = ("", false).
Proof.
  intros w. split; [reflexivity|]. split; [reflexivity|].
  destruct (registry_remove_lookup scenario.leaving scenario.arriving w)
    as [Hgone _].
  rewrite Hgone; reflexivity.
Defined.

(** X3: when the deregister path returns, the registry holds the record's
    key exactly if finalizer removal was not reached: the key maps to the
    record's name when the path submitted no write (driver missing, call
    failed, or an answer other than [Succ]), and is absent as soon as the
    [Update] was submitted, accepted or not. No other key is touched. *)
Theorem deregisterBackend_registry `{Defaults} (c : backendController)
    (backend : BackendRecord) (w : World) :
  let w' := snd (deregisterBackend c backend w) in
  ((∀ e, e ∈ effects (deregisterBackend c backend) w → written e = None) →
   inProgressDeleting w' !! registryKey backend = Some (Name backend))
  ∧ ((∃ e, e ∈ effects (deregisterBackend c backend) w ∧ isWrite e = true) →
     inProgressDeleting w' !! registryKey backend = None)
  ∧ (∀ key, key ≠ registryKey backend →
       inProgressDeleting w' !! key = inProgressDeleting w !! key).
Proof.
  unfold deregisterBackend, removeFinalizer, storeDeletingBackend,
    removeDeletingRecord. run.
  cases; traces.
  all: split; [|split].
  all: try (intros key Hkey;
            rewrite ?lookup_delete_ne, ?lookup_insert_ne by congruence; done).
  all: try (intros _; by rewrite lookup_insert_eq).
  all: try (intros _; by rewrite lookup_delete_eq).
  all: try (intros Hnone; exfalso;
            match type of Hnone with
            | context [Update ?ns ?r] =>
                assert (Hw : Some r = None)
                  by (apply (Hnone (Update ns r));
                      repeat first [apply list_elem_of_here
                                   | apply list_elem_of_further]);
                discriminate Hw
            end).
  all: try (intros (x & Hin & Hw); exfalso; set_unfold; destruct_or?;
            simplify_eq/=; done).
Qed.

Lemma deregisterBackend_registry_witness :
  let ctrl := scenario.controller (scenario.answering "Running" None) None in
  (∀ e, e ∈ effects (@deregisterBackend scenario.defaults ctrl scenario.leaving)
              (scenario.world ∅) → written e = None)
  ∧ inProgressDeleting
      (snd (@deregisterBackend scenario.defaults ctrl scenario.leaving
              (scenario.world ∅)))
    !! "lb1|1.1.1.1" = Some "leaving".
Proof.
  intros ctrl.
  assert (Hnone : ∀ e,
    e ∈ effects (@deregisterBackend scenario.defaults ctrl scenario.leaving)
          (scenario.world ∅) → written e = None).
  { intros e Hin. vm_compute in Hin.
    repeat (apply elem_of_cons in Hin as [->|Hin]; [reflexivity|]).
    by apply elem_of_nil in Hin. }
  split; [exact Hnone|].
  destruct (@deregisterBackend_registry scenario.defaults ctrl scenario.leaving
              (scenario.world ∅)) as [Hkept _].
  exact (Hkept Hnone).
Defined.

(** ** The course of a reconcile *)

(** X4: the effects of every reconcile come in one fixed order, each kind
    at most once: the registry entry is stored, then the driver is called,
    then the registry entry is deleted, then the record is written, then an
    event is emitted. So a reconcile makes at most one driver call and at
    most one write, never writes before it has the driver's answer, and
    never calls the driver before the deleting record is in the registry.
    It draws exactly one UUID per driver call. *)
Theorem syncBackendRecord_course `{Defaults} (c : backendController)
    (key : string) (w : World) :
  StronglySorted (λ a b, (rank a < rank b)%nat)
    (effects (syncBackendRecord c key) w)
  ∧ drawn (snd (syncBackendRecord c key w))
    = (drawn w
       + length (filter (λ e, isHookCall e = true)
                   (effects (syncBackendRecord c key) w)))%nat
  ∧ (length (filter (λ e, isHookCall e = true)
               (effects (syncBackendRecord c key) w)) ≤ 1)%nat
  ∧ (length (filter (λ e, isWrite e = true)
               (effects (syncBackendRecord c key) w)) ≤ 1)%nat.
Proof.
  unfold syncBackendRecord, deregisterBackend, generateBackendAddr,
    ensureBackend, generateBackendAddr_switch, generatePodAddr,
    generateServiceAddr, removeFinalizer, storeDeletingBackend,
    removeDeletingRecord, sameAddrDeleting. run.
  cases; traces.
  all: split;
    [repeat first [apply SSorted_nil | apply Forall_nil_2 | apply SSorted_cons
                  | apply Forall_cons_2; [simpl; lia|]]|].
  all: split; [simpl; lia|].
  all: split; simpl; lia.
Qed.

(** ** What the driver is sent *)

(** X5: every driver call of a reconcile goes to the driver the lister
    returned for the record, carries the [RetryID] drawn for it and the
    [RecordID] ["<operation>(<UID>)"], and is made of the record as it was
    read: an ensure or deregister request echoes [LBInfo], the status's
    [BackendAddr] and [InjectedInfo] and the [Parameters]; a generate request
    carries [LBInfo], [LBAttributes] and either the pod the lister returned
    with the declared port, or the service, the declared port, and the name
    and addresses of the node the lister returned. Ensure is only called for
    a record that is not being deleted, deregister only for one that is. *)
Theorem driver_requests `{Defaults} (c : backendController)
    (key namespace name : string) (backend : BackendRecord) (w : World) :
  SplitMetaNamespaceKey key = inr (namespace, name) →
  brLister c namespace name = inr backend →
  ∀ e, e ∈ effects (syncBackendRecord c key) w →
    match e with
    | HookEnsureBackend d req =>
        getDriver c backend = inr d
        ∧ echoes "ensureBackend" backend req
        ∧ webhooks.RetryID (webhooks.op_Retry req) = uuids w (drawn w)
        ∧ DeletionTimestamp backend = None
    | HookDeregisterBackend d req =>
        getDriver c backend = inr d
        ∧ echoes "deregisterBackend" backend req
        ∧ webhooks.RetryID (webhooks.op_Retry req) = uuids w (drawn w)
        ∧ is_Some (DeletionTimestamp backend)
    | HookGenerateBackendAddr d req =>
        getDriver c backend = inr d
        ∧ webhooks.RecordID (webhooks.gen_Retry req)
          = "generateBackendAddr(" +:+ UID backend +:+ ")"
        ∧ webhooks.RetryID (webhooks.gen_Retry req) = uuids w (drawn w)
        ∧ webhooks.gen_LBInfo req = LBInfo (Spec backend)
        ∧ webhooks.gen_LBAttributes req = LBAttributes (Spec backend)
        ∧ ((∃ info pod,
              PodBackendInfo_ (Spec backend) = Some info
              ∧ podLister c (Namespace backend) (lbcfapi.pod_Name info) = inr pod
              ∧ webhooks.PodBackend req
                = Some {| webhooks.Pod := pod;
                          webhooks.pod_Port := lbcfapi.pod_Port info |}
              ∧ webhooks.ServiceBackend req = None)
           ∨ (∃ info node svc,
                PodBackendInfo_ (Spec backend) = None
                ∧ ServiceBackendInfo_ (Spec backend) = Some info
                ∧ nodeLister c (svc_NodeName info) = inr node
                ∧ svcLister c (Namespace backend) (lbcfapi.svc_Name info) = inr svc
                ∧ webhooks.PodBackend req = None
                ∧ webhooks.ServiceBackend req
                  = Some {| webhooks.Service := svc;
                            webhooks.svc_Port := lbcfapi.svc_Port info;
                            webhooks.NodeName := apicore.node_Name node;
                            webhooks.NodeAddresses :=
                              apicore.node_Addresses node |}))
    | _ => True
    end.
Proof.
  intros Hkey Hget.
  unfold syncBackendRecord. rewrite Hkey, Hget.
  unfold deregisterBackend, generateBackendAddr, ensureBackend,
    generateBackendAddr_switch, generatePodAddr, generateServiceAddr,
    removeFinalizer, storeDeletingBackend, removeDeletingRecord,
    sameAddrDeleting, echoes. run.
  cases; traces.
  all: intros x Hin; set_unfold; destruct_or?; simplify_eq/=; try done.
  all: repeat split; eauto 10.
Qed.

Lemma driver_requests_witness :
  let ctrl := scenario.controller (scenario.answering "Succ" None) None in
  let req := operationRequest "ensureBackend" scenario.steady "retry-0" in
  SplitMetaNamespaceKey "default/steady" = inr ("default", "steady")
  ∧ brLister ctrl "default" "steady" = inr scenario.steady
  ∧ HookEnsureBackend scenario.driver req
      ∈ effects (@syncBackendRecord scenario.defaults ctrl "default/steady")
          (scenario.world ∅)
  ∧ echoes "ensureBackend" scenario.steady req.
Proof.
  intros ctrl req.
  assert (Hin : HookEnsureBackend scenario.driver req
                  ∈ effects (@syncBackendRecord scenario.defaults ctrl
                               "default/steady") (scenario.world ∅)).
  { vm_compute. apply list_elem_of_here. }
  split; [vm_compute; reflexivity|]. split; [vm_compute; reflexivity|].
  split; [exact Hin|].
  destruct (@driver_requests scenario.defaults ctrl "default/steady" "default"
              "steady" scenario.steady (scenario.world ∅)
              ltac:(vm_compute; reflexivity) ltac:(vm_compute; reflexivity)
              _ Hin) as (_ & Hecho & _).
  exact Hecho.
Defined.

(** ** What a verdict tells *)

(** X6: the verdict of the ensure path read backwards. [Success] and
    [Periodic] mean the driver answered [Succ] and the status update was
    accepted. [Fail] means the driver answered [Fail], its delay hint went
    into the verdict, and a status update that records the failed condition
    and leaves [InjectedInfo] as it was has been accepted. [Async] means
    nothing was written, and either the same-address guard held the record
    back before any driver call or the driver answered [Running]. [Error]
    means the driver was not found, the call failed, the status update was
    rejected, or the driver answered with a status outside the three. *)
Theorem ensureBackend_verdict `{Defaults} (c : backendController)
    (backend : BackendRecord) (w : World) :
  let t := effects (ensureBackend c backend) w in
  let answered (status : string) (rsp : webhooks.BackendOperationResponse) :=
    ∃ d req, HookEnsureBackend d req ∈ t
             ∧ CallEnsureBackend (webhookInvoker c) d req = inr rsp
             ∧ webhooks.op_Status rsp = status in
  match verdict (ensureBackend c backend) w with
  | SuccResult | PeriodicResult _ =>
      ∃ rsp r, answered webhooks.StatusSucc rsp
               ∧ UpdateStatus (Namespace backend) r ∈ t
               ∧ accepted c (UpdateStatus (Namespace backend) r)
  | FailResult delay =>
      ∃ rsp r, answered webhooks.StatusFail rsp
               ∧ delay = CalculateRetryInterval
                           (webhooks.op_MinRetryDelayInSeconds rsp)
               ∧ UpdateStatus (Namespace backend) r ∈ t
               ∧ accepted c (UpdateStatus (Namespace backend) r)
               ∧ Status r
                 = AddBackendCondition (Status backend)
                     (registeredCondition ConditionFalse ReasonOperationFailed
                        (webhooks.op_Msg rsp) (clock w))
               ∧ InjectedInfo (Status r) = InjectedInfo (Status backend)
  | AsyncResult delay =>
      filter (λ e, isWrite e = true) t = []
      ∧ ((∃ name, inProgressDeleting w !! registryKey backend = Some name
                  ∧ delay = CalculateRetryInterval 0
                  ∧ filter (λ e, isHookCall e = true) t = [])
         ∨ ∃ rsp, answered webhooks.StatusRunning rsp
                  ∧ delay = CalculateRetryInterval
                              (webhooks.op_MinRetryDelayInSeconds rsp))
  | ErrorResult err =>
      (∃ cause, getDriver c backend = inl cause
                ∧ err = retrieveDriverFailed backend cause ∧ t = [])
      ∨ (∃ d req, t = [HookEnsureBackend d req]
                  ∧ CallEnsureBackend (webhookInvoker c) d req = inl err)
      ∨ (∃ r, UpdateStatus (Namespace backend) r ∈ t
              ∧ client_UpdateStatus c (Namespace backend) r = Some err)
      ∨ (∃ rsp status, answered status rsp
                       ∧ status ≠ webhooks.StatusSucc
                       ∧ status ≠ webhooks.StatusFail
                       ∧ status ≠ webhooks.StatusRunning
                       ∧ err = go.Errorf ("unknown status " +:+ go.quote status)
                       ∧ filter (λ e, isWrite e = true) t = [])
  end.
Proof.
  unfold ensureBackend, sameAddrDeleting, accepted, registeredCondition. run.
  destruct (inProgressDeleting w !! registryKey backend) eqn:Hreg; simpl.
  all: cases; traces.
  all: try (split; [reflexivity|]).
  all: try (left; eexists; repeat split; reflexivity).
  all: try (left; eexists; repeat split; done).
  all: try (right; left; do 2 eexists; split; [reflexivity|done]).
  all: try (right; right; left; eexists; split; [|eassumption]; set_solver).
  all: try (right; right; right; do 2 eexists;
            split; [do 2 eexists; split;
                     [apply list_elem_of_here|split; [eassumption|reflexivity]]|];
            repeat split; done).
  all: try (right; eexists; split; [|reflexivity];
            do 2 eexists; split;
              [apply list_elem_of_here|split; [eassumption|done]]).
  all: do 2 eexists;
    (split; [do 2 eexists; split;
               [apply list_elem_of_here|split; [eassumption|done]]|]).
  all: try (split; [reflexivity|]).
  all: split; [apply list_elem_of_further, list_elem_of_here|].
  all: repeat split; done.
Qed.

(** X7: the verdict of the generate path read backwards. [Success] means a
    response with status [Succ] was acted on and the status update carrying
    its [BackendAddr] was accepted. [Fail] and [Async] mean the response had
    status [Fail] or [Running], the delay is the one computed from its
    hint, and nothing was written. The path never returns [Periodic]. After
    [Error] the controller has no accepted write. *)
Theorem generateBackendAddr_verdict `{Defaults} (c : backendController)
    (backend : BackendRecord) (w : World) :
  let t := effects (generateBackendAddr c backend) w in
  match verdict (generateBackendAddr c backend) w with
  | SuccResult =>
      ∃ rsp, generatedBy c backend t rsp
             ∧ webhooks.gen_Status rsp = webhooks.StatusSucc
             ∧ UpdateStatus (Namespace backend)
                 (set_BackendAddr backend (webhooks.gen_BackendAddr rsp)) ∈ t
             ∧ accepted c
                 (UpdateStatus (Namespace backend)
                    (set_BackendAddr backend (webhooks.gen_BackendAddr rsp)))
  | FailResult delay =>
      ∃ rsp, generatedBy c backend t rsp
             ∧ webhooks.gen_Status rsp = webhooks.StatusFail
             ∧ delay = CalculateRetryInterval
                         (webhooks.gen_MinRetryDelayInSeconds rsp)
             ∧ filter (λ e, isWrite e = true) t = []
  | AsyncResult delay =>
      ∃ rsp, generatedBy c backend t rsp
             ∧ webhooks.gen_Status rsp = webhooks.StatusRunning
             ∧ delay = CalculateRetryInterval
                         (webhooks.gen_MinRetryDelayInSeconds rsp)
             ∧ filter (λ e, isWrite e = true) t = []
  | PeriodicResult _ => False
  | ErrorResult err => ∀ e, e ∈ t → ¬ accepted c e
  end.
Proof.
  unfold generatedBy, generateBackendAddr, generateBackendAddr_switch,
    generatePodAddr, generateServiceAddr, accepted. run.
  cases; traces.
  all: try (intros x Hin; set_unfold; destruct_or?; simplify_eq/=; congruence).
  all: eexists; split;
    [first [left; do 2 eexists; split; [apply list_elem_of_here|eassumption]
           | right; eexists; split; reflexivity]|].
  all: split; [done|].
  all: split;
    [first [reflexivity
           | repeat first [apply list_elem_of_here | apply list_elem_of_further]]
    | first [reflexivity | done]].
Qed.

(** X8: the verdict of the deregister path read backwards. [Success] means
    the [Update] that strips the finalizer was accepted, after an empty
    address or a [Succ] answer, and the registry entry is gone. [Fail] and
    [Async] mean the driver answered [Fail] or [Running], nothing was
    written and the registry still holds the record. The path never returns
    [Periodic]. [Error] means the driver was not found or the call failed or
    the answer had an unknown status, with the registry still holding the
    record and nothing written, or the [Update] was rejected, with the
    registry entry already gone. *)
Theorem deregisterBackend_verdict `{Defaults} (c : backendController)
    (backend : BackendRecord) (w : World) :
  let t := effects (deregisterBackend c backend) w in
  let registry := inProgressDeleting (snd (deregisterBackend c backend w)) in
  let stripped :=
    set_Finalizers backend
      (RemoveFinalizer (Finalizers backend) FinalizerDeregisterBackend) in
  let answered (rsp : webhooks.BackendOperationResponse) :=
    ∃ d req, HookDeregisterBackend d req ∈ t
             ∧ CallDeregisterBackend (webhookInvoker c) d req = inr rsp in
  let kept :=
    registry !! registryKey backend = Some (Name backend)
    ∧ filter (λ e, isWrite e = true) t = [] in
  match verdict (deregisterBackend c backend) w with
  | SuccResult =>
      Update (Namespace backend) stripped ∈ t
      ∧ client_Update c (Namespace backend) stripped = None
      ∧ registry !! registryKey backend = None
      ∧ (BackendAddr (Status backend) = ""
         ∨ ∃ rsp, answered rsp ∧ webhooks.op_Status rsp = webhooks.StatusSucc)
  | FailResult delay =>
      kept ∧ ∃ rsp, answered rsp
                    ∧ webhooks.op_Status rsp = webhooks.StatusFail
                    ∧ delay = CalculateRetryInterval
                                (webhooks.op_MinRetryDelayInSeconds rsp)
  | AsyncResult delay =>
      kept ∧ ∃ rsp, answered rsp
                    ∧ webhooks.op_Status rsp = webhooks.StatusRunning
                    ∧ delay = CalculateRetryInterval
                                (webhooks.op_MinRetryDelayInSeconds rsp)
  | PeriodicResult _ => False
  | ErrorResult err =>
      (kept ∧ ∃ cause, getDriver c backend = inl cause
                       ∧ err = retrieveDriverFailed backend cause)
      ∨ (kept ∧ ∃ d req, HookDeregisterBackend d req ∈ t
                         ∧ CallDeregisterBackend (webhookInvoker c) d req
                           = inl err)
      ∨ (kept ∧ ∃ rsp, answered rsp
                       ∧ err = go.Errorf ("unknown status "
                                          +:+ go.quote (webhooks.op_Status rsp)))
      ∨ (Update (Namespace backend) stripped ∈ t
         ∧ client_Update c (Namespace backend) stripped = Some err
         ∧ registry !! registryKey backend = None)
  end.
Proof.
  unfold deregisterBackend, removeFinalizer, storeDeletingBackend,
    removeDeletingRecord. run.
  cases; traces.
  all: rewrite ?lookup_delete_eq, ?lookup_insert_eq.
  all: try (do 3 right; split;
            [repeat first [apply list_elem_of_here | apply list_elem_of_further]
            |done]).
  all: try (left; split; [done|]; eexists; done).
  all: try (right; left; split; [done|]; do 2 eexists;
            split; [apply list_elem_of_further, list_elem_of_here|done]).
  all: try (right; right; left; split; [done|]; eexists; split; [|reflexivity];
            do 2 eexists;
            split; [apply list_elem_of_further, list_elem_of_here|eassumption]).
  all: try (split; [done|]; eexists; split; [|done]; do 2 eexists;
            split; [apply list_elem_of_further, list_elem_of_here|eassumption]).
  all: split;
    [repeat first [apply list_elem_of_here | apply list_elem_of_further]|].
  all: split; [done|]. all: split; [done|].
  all: first [left; assumption | right].
  all: eexists; split; [|eassumption]; do 2 eexists;
    split; [apply list_elem_of_further, list_elem_of_here|eassumption].
Qed.

(** ** Lookups that fail *)

(** X9: a record whose driver the lister cannot return gets nowhere on any
    path. The generate path returns [Error] and does nothing, whatever the
    backend source, a static address included; the ensure path, unless held
    back by the same-address guard, does the same; the deregister path of a
    record with an address returns [Error] having only stored the record in
    the registry. The error names the driver and the record. *)
Theorem driver_not_found `{Defaults} (c : backendController)
    (backend : BackendRecord) (w : World) (cause : error) :
  getDriver c backend = inl cause →
  let err :=
    go.Errorf ("retrieve driver " +:+ go.quote (LBDriver (Spec backend))
               +:+ " for BackendRecord " +:+ Name backend
               +:+ " failed: " +:+ go.msg cause) in
  generateBackendAddr c backend w = (ErrorResult err, w)
  ∧ (inProgressDeleting w !! registryKey backend = None →
     ensureBackend c backend w = (ErrorResult err, w))
  ∧ (BackendAddr (Status backend) ≠ "" →
     verdict (deregisterBackend c backend) w = ErrorResult err
     ∧ effects (deregisterBackend c backend) w
       = [RegistryStore (registryKey backend) (Name backend)]).
Proof.
  intros Hdrv. simpl. split; [|split].
  - unfold generateBackendAddr. by rewrite Hdrv.
  - intros Hreg. unfold ensureBackend, sameAddrDeleting. run.
    rewrite Hreg. simpl. by rewrite Hdrv.
  - intros Hfull. unfold deregisterBackend, storeDeletingBackend. run.
    rewrite decide_False by done. rewrite Hdrv. simpl.
    split; [done|]. apply drop_app_length.
Qed.

Lemma driver_not_found_witness :
  let ctrl := scenario.controller scenario.unreachable None in
  let orphan :=
    scenario.record "orphan" None []
      {| LBDriver := "gone"; LBInfo := "lb1"; LBAttributes := None;
         Parameters := None; PodBackendInfo_ := None;
         ServiceBackendInfo_ := None; StaticAddr := Some "10.0.0.9:80";
         EnsurePolicy := None |} "" in
  @getDriver scenario.defaults ctrl orphan = inl (scenario.notFoundErr "gone")
  ∧ ∃ err, @generateBackendAddr scenario.defaults ctrl orphan (scenario.world ∅)
           = (ErrorResult err, scenario.world ∅).
Proof.
  intros ctrl orphan. split; [vm_compute; reflexivity|].
  eexists.
  apply (@driver_not_found scenario.defaults ctrl orphan (scenario.world ∅)
           (scenario.notFoundErr "gone")).
  vm_compute; reflexivity.
Defined.

(** X10: a backend source that cannot be looked up ends the generate path
    with the lister's own error as the [Error] verdict, before any driver
    call: nothing happens. For a pod source that is the pod's lookup; for a
    service source the node is looked up first, so a missing node is
    reported even when the service is missing too, and the service's error
    shows only once the node is found. *)
Theorem generate_source_not_found `{Defaults} (c : backendController)
    (backend : BackendRecord) (driver : LoadBalancerDriver) (w : World)
    (err : error) :
  getDriver c backend = inr driver →
  (∀ info, PodBackendInfo_ (Spec backend) = Some info →
     podLister c (Namespace backend) (lbcfapi.pod_Name info) = inl err →
     generateBackendAddr c backend w = (ErrorResult err, w))
  ∧ (∀ info, PodBackendInfo_ (Spec backend) = None →
       ServiceBackendInfo_ (Spec backend) = Some info →
       (nodeLister c (svc_NodeName info) = inl err →
        generateBackendAddr c backend w = (ErrorResult err, w))
       ∧ (∀ node, nodeLister c (svc_NodeName info) = inr node →
            svcLister c (Namespace backend) (lbcfapi.svc_Name info) = inl err →
            generateBackendAddr c backend w = (ErrorResult err, w))).
Proof.
  intros Hdrv. unfold generateBackendAddr. rewrite Hdrv. split.
  - intros info -> Hpod. unfold generatePodAddr. run. by rewrite Hpod.
  - intros info -> ->. unfold generateServiceAddr. run. split.
    + intros Hnode. by rewrite Hnode.
    + intros node Hnode Hsvc. by rewrite Hnode, Hsvc.
Qed.

Lemma generate_source_not_found_witness :
  let ctrl := scenario.controller scenario.unreachable None in
  let lonely :=
    scenario.record "lonely" None []
      {| LBDriver := "drv"; LBInfo := "lb1"; LBAttributes := None;
         Parameters := None;
         PodBackendInfo_ :=
           Some {| lbcfapi.pod_Name := "web-9"; lbcfapi.pod_Port := 80 |};
         ServiceBackendInfo_ := None; StaticAddr := None;
         EnsurePolicy := None |} "" in
  @getDriver scenario.defaults ctrl lonely = inr scenario.driver
  ∧ podLister ctrl "default" "web-9" = inl (scenario.notFoundErr "web-9")
  ∧ @generateBackendAddr scenario.defaults ctrl lonely (scenario.world ∅)
    = (ErrorResult (scenario.notFoundErr "web-9"), scenario.world ∅).
Proof.
  intros ctrl lonely. split; [vm_compute; reflexivity|].
  split; [vm_compute; reflexivity|].
  destruct (@generate_source_not_found scenario.defaults ctrl lonely
              scenario.driver (scenario.world ∅) (scenario.notFoundErr "web-9"))
    as [Hpod _]; [vm_compute; reflexivity|].
  apply (Hpod {| lbcfapi.pod_Name := "web-9"; lbcfapi.pod_Port := 80 |});
    vm_compute; reflexivity.
Defined.

(** ** An empty address from the driver *)

(** X11: the generate path takes a [Succ] response as it is, an empty
    [BackendAddr] included: the record is written back exactly as it was
    read, address still empty, and when that write is accepted the verdict
    is [Success] although nothing has been generated. *)
Theorem generate_empty_address `{Defaults} (c : backendController)
    (backend : BackendRecord) (w : World)
    (rsp : webhooks.GenerateBackendAddrResponse) :
  BackendAddr (Status backend) = "" →
  webhooks.gen_Status rsp = webhooks.StatusSucc →
  webhooks.gen_BackendAddr rsp = "" →
  filter (λ e, isWrite e = true) (effects (generateBackendAddr_switch c backend rsp) w)
    = [UpdateStatus (Namespace backend) backend]
  ∧ (client_UpdateStatus c (Namespace backend) backend = None →
     verdict (generateBackendAddr_switch c backend rsp) w = SuccResult).
Proof.
  intros Hempty Hsucc Haddr.
  assert (Hsame : set_BackendAddr backend "" = backend).
  { destruct backend as [? ? ? ? ? ? [? ? ?]]. simpl in Hempty. by subst. }
  unfold generateBackendAddr_switch. run.
  rewrite (decide_True _ _ Hsucc), Haddr, Hsame.
  destruct (client_UpdateStatus c (Namespace backend) backend); simpl; traces;
    done.
Qed.

Lemma generate_empty_address_witness :
  let ctrl := scenario.controller scenario.unreachable None in
  let rsp := {| webhooks.gen_Status := "Succ"; webhooks.gen_Msg := "";
                webhooks.gen_MinRetryDelayInSeconds := 0;
                webhooks.gen_BackendAddr := "" |} in
  BackendAddr (Status scenario.fresh) = ""
  ∧ verdict (@generateBackendAddr_switch scenario.defaults ctrl scenario.fresh rsp)
      (scenario.world ∅) = SuccResult.
Proof.
  intros ctrl rsp. split; [reflexivity|].
  destruct (@generate_empty_address scenario.defaults ctrl scenario.fresh
              (scenario.world ∅) rsp eq_refl eq_refl eq_refl) as [_ Hv].
  apply Hv. reflexivity.
Defined.

(** ** The registry across a reconcile *)

Lemma deregisterBackend_other_keys `{Defaults} (c : backendController)
    (backend : BackendRecord) (w : World) (k : string) :
  k ≠ registryKey backend →
  inProgressDeleting (snd (deregisterBackend c backend w)) !! k
  = inProgressDeleting w !! k.
Proof.
  intros Hne.
  unfold deregisterBackend, removeFinalizer, storeDeletingBackend,
    removeDeletingRecord. run.
  cases; rewrite ?lookup_delete_ne, ?lookup_insert_ne by congruence; done.
Qed.

(** X12: a reconcile changes the registry only on the deregister path and
    only under the key of the record it reconciles: if any key answers
    differently afterwards, the record was found with a deletion timestamp
    and the finalizer, and the key is its ["LBInfo|BackendAddr"]. In
    particular no reconcile of a record that is gone, or of one that is not
    being deleted, ever removes an entry. *)
Theorem registry_changes_only_on_deregister `{Defaults} (c : backendController)
    (key : string) (w : World) (k : string) :
  inProgressDeleting (snd (syncBackendRecord c key w)) !! k
    ≠ inProgressDeleting w !! k →
  ∃ namespace name backend,
    SplitMetaNamespaceKey key = inr (namespace, name)
    ∧ brLister c namespace name = inr backend
    ∧ is_Some (DeletionTimestamp backend)
    ∧ FinalizerDeregisterBackend ∈ Finalizers backend
    ∧ k = LBInfo (Spec backend) +:+ "|" +:+ BackendAddr (Status backend).
Proof.
  unfold syncBackendRecord.
  destruct (SplitMetaNamespaceKey key) as [err|[namespace name]]; [done|].
  destruct (brLister c namespace name) as [err|backend] eqn:Hget.
  { by destruct (IsNotFound _). }
  destruct (DeletionTimestamp backend) as [ts|] eqn:Hts.
  - unfold HasFinalizer.
    destruct (decide (FinalizerDeregisterBackend ∈ Finalizers backend))
      as [Hfin|Hfin].
    2: { by rewrite bool_decide_eq_false_2. }
    rewrite bool_decide_eq_true_2 by done. simpl. intros Hchg.
    exists namespace, name, backend.
    repeat split; [done..|].
    destruct (decide (k = registryKey backend)) as [|Hne]; [done|].
    exfalso. apply Hchg.
    by apply deregisterBackend_other_keys.
  - destruct (decide (BackendAddr (Status backend) = "")); intros Hchg;
      exfalso; apply Hchg; f_equal.
    + unfold generateBackendAddr, generateBackendAddr_switch, generatePodAddr,
        generateServiceAddr. run. by cases.
    + unfold ensureBackend, sameAddrDeleting. run. by cases.
Qed.

Lemma registry_changes_only_on_deregister_witness :
  let ctrl := scenario.controller (scenario.answering "Running" None) None in
  inProgressDeleting
    (snd (@syncBackendRecord scenario.defaults ctrl "default/leaving"
            (scenario.world ∅))) !! "lb1|1.1.1.1"
    ≠ inProgressDeleting (scenario.world ∅) !! "lb1|1.1.1.1"
  ∧ ∃ backend,
      brLister ctrl "default" "leaving" = inr backend
      ∧ is_Some (DeletionTimestamp backend)
      ∧ "lb1|1.1.1.1" = LBInfo (Spec backend) +:+ "|" +:+ BackendAddr (Status backend).
Proof.
  intros ctrl.
  assert (Hchg : inProgressDeleting
            (snd (@syncBackendRecord scenario.defaults ctrl "default/leaving"
                    (scenario.world ∅))) !! "lb1|1.1.1.1"
            ≠ inProgressDeleting (scenario.world ∅) !! "lb1|1.1.1.1").
  { vm_compute. discriminate. }
  split; [exact Hchg|].
  destruct (@registry_changes_only_on_deregister scenario.defaults ctrl
              "default/leaving" (scenario.world ∅) "lb1|1.1.1.1" Hchg)
    as (namespace & name & backend & Hkey & Hget & Hts & _ & Hk).
  injection Hkey as <- <-.
  exists backend. repeat split; assumption.
Defined.

(** ** Keys *)

Lemma split_aux_no_sep (sep : Ascii.ascii) (s cur : string) :
  countByte sep s = 0%nat →
  go.split_aux sep cur s = [String.rev_app cur s].
Proof.
  revert cur. induction s as [|ch rest IH]; intros cur; simpl; [done|].
  destruct (decide (ch = sep)); [done|]. intros Hcount. by rewrite IH.
Qed.

Lemma split_aux_app (sep : Ascii.ascii) (a b cur : string) :
  countByte sep a = 0%nat →
  go.split_aux sep cur (a +:+ String sep b)
  = String.rev_app cur a :: go.split_aux sep "" b.
Proof.
  revert cur. induction a as [|ch rest IH]; intros cur; simpl.
  - intros _. by rewrite decide_True.
  - destruct (decide (ch = sep)); [done|]. intros Hcount. by rewrite IH.
Qed.

Lemma split_aux_length (sep : Ascii.ascii) (s cur : string) :
  length (go.split_aux sep cur s) = S (countByte sep s).
Proof.
  revert cur. induction s as [|ch rest IH]; intros cur; simpl; [done|].
  destruct (decide (ch = sep)); simpl; by rewrite IH.
Qed.

(** X13: how a key reaches the lister. A key of the form
    [namespace/name], neither part containing a slash, is split back into
    exactly that namespace and name; a key without any slash is a name in
    the empty namespace; a key with two or more slashes is refused and the
    reconcile returns that [Error] without doing anything. *)
Theorem syncBackendRecord_keys (key : string) :
  (countByte go.slash key = 0%nat →
   SplitMetaNamespaceKey key = inr ("", key))
  ∧ (∀ namespace name,
       key = namespace +:+ "/" +:+ name →
       countByte go.slash namespace = 0%nat → countByte go.slash name = 0%nat →
       SplitMetaNamespaceKey key = inr (namespace, name))
  ∧ ((2 ≤ countByte go.slash key)%nat →
     ∃ err, SplitMetaNamespaceKey key = inl err
            ∧ ∀ (D : Defaults) (c : backendController) (w : World),
                @syncBackendRecord D c key w = (ErrorResult err, w)).
Proof.
  unfold SplitMetaNamespaceKey, go.Split. split; [|split].
  - intros Hnone. by rewrite split_aux_no_sep.
  - intros namespace name -> Hns Hname.
    change ("/" +:+ name) with (String go.slash name).
    rewrite split_aux_app by done. by rewrite split_aux_no_sep.
  - intros Hmany.
    pose proof (split_aux_length go.slash key "") as Hlen.
    unfold syncBackendRecord, SplitMetaNamespaceKey, go.Split.
    destruct (go.split_aux go.slash "" key) as [|a [|b [|c' rest]]];
      simpl in Hlen; try lia.
    eexists. split; [reflexivity|]. done.
Qed.

Lemma syncBackendRecord_keys_witness :
  (2 ≤ countByte go.slash "a/b/c")%nat
  ∧ ∃ err, @syncBackendRecord scenario.defaults
             (scenario.controller scenario.unreachable None) "a/b/c"
             (scenario.world ∅)
           = (ErrorResult err, scenario.world ∅).
Proof.
  split; [vm_compute; lia|].
  destruct (syncBackendRecord_keys "a/b/c") as (_ & _ & Hbad).
  destruct Hbad as (err & _ & Hsync); [vm_compute; lia|].
  exists err. apply Hsync.
Defined.

(** ** The webhook client: timeout and path *)

(** X14: the timeout of a call is the one configured under the hook's name,
    the first if the name is configured more than once, and the zero
    duration if the driver does not configure the hook at all. *)
Theorem hookTimeout_first_match (hooks : list WebhookConfig) (webHookName : string) :
  ((∀ h, h ∈ hooks → hook_Name h ≠ webHookName) →
   hookTimeout hooks webHookName = 0)
  ∧ (∀ before h after,
       hooks = before ++ h :: after →
       hook_Name h = webHookName →
       (∀ h', h' ∈ before → hook_Name h' ≠ webHookName) →
       hookTimeout hooks webHookName = hook_Timeout h).
Proof.
  split.
  - induction hooks as [|h rest IH]; simpl; [done|]. intros Hnone.
    rewrite decide_False by (apply Hnone; left).
    apply IH. intros h' Hin. apply Hnone. by right.
  - intros before h after -> Hname Hnone.
    induction before as [|b rest IH]; simpl.
    + by rewrite decide_True.
    + rewrite decide_False by (apply Hnone; left).
      apply IH. intros h' Hin. apply Hnone. by right.
Qed.

Lemma hookTimeout_first_match_witness :
  hook_Name {| hook_Name := "ensureBackend"; hook_Timeout := 5 * Second |}
    = "ensureBackend"
  ∧ hookTimeout
      [ {| hook_Name := "deregBackend"; hook_Timeout := 7 * Second |};
        {| hook_Name := "ensureBackend"; hook_Timeout := 5 * Second |};
        {| hook_Name := "ensureBackend"; hook_Timeout := 9 * Second |} ]
      "ensureBackend" = 5 * Second.
Proof.
  split; [reflexivity|].
  destruct (hookTimeout_first_match
              [ {| hook_Name := "deregBackend"; hook_Timeout := 7 * Second |};
                {| hook_Name := "ensureBackend"; hook_Timeout := 5 * Second |};
                {| hook_Name := "ensureBackend"; hook_Timeout := 9 * Second |} ]
              "ensureBackend") as [_ Hfirst].
  apply (Hfirst [ {| hook_Name := "deregBackend"; hook_Timeout := 7 * Second |} ]
           {| hook_Name := "ensureBackend"; hook_Timeout := 5 * Second |}
           [ {| hook_Name := "ensureBackend"; hook_Timeout := 9 * Second |} ]);
    [reflexivity | reflexivity |].
  intros h' Hin. apply list_elem_of_singleton in Hin as ->. discriminate.
Defined.

Lemma prefix_slash_false (s : string) :
  countByte go.slash s = 0%nat → s ≠ "" → go.HasPrefix s "/" = false.
Proof.
  destruct s as [|ch rest]; [done|]. simpl. intros Hcount _.
  unfold go.HasPrefix. simpl.
  destruct (decide (ch = go.slash)) as [|Hne]; [done|].
  case_match; [|done]. exfalso. apply Hne. by subst.
Qed.

(** X15: for a hook name that is a single path component (not empty, no
    slash, neither [.] nor [..]), the path the request is sent to is the
    hook name itself, whatever path the driver URL had: the reply comes from
    the URL printed from the parsed driver URL with [Path] set to the hook
    name and every other field as parsed. *)
Theorem callWebhook_path {P R : Type} (env : HttpEnv P R)
    (driver : LoadBalancerDriver) (webHookName : string) (payload : P) (u : URL) :
  webHookName ≠ "" → webHookName ≠ "." → webHookName ≠ ".." →
  countByte go.slash webHookName = 0%nat →
  path_Join [webHookName] = webHookName
  ∧ replyOf env driver webHookName payload u
    = EndBytes env (hookTimeout (Webhooks (drv_Spec driver)) webHookName)
        (url_String env
           {| Scheme := Scheme u; Opaque := Opaque u; Host := Host u;
              Path := webHookName; RawPath := RawPath u;
              RawQuery := RawQuery u; Fragment := Fragment u |})
        payload.
Proof.
  intros Hne Hdot Hdots Hcount.
  assert (Hjoin : path_Join [webHookName] = webHookName).
  { unfold path_Join. rewrite filter_cons_True by done. rewrite filter_nil.
    simpl. unfold path_Clean. rewrite decide_False by done.
    rewrite prefix_slash_false by done. unfold go.Split.
    rewrite split_aux_no_sep by done. simpl.
    destruct (decide (webHookName = "")); [done|].
    destruct (decide (webHookName = ".")); [done|].
    destruct (decide (webHookName = "..")); [done|].
    simpl. by rewrite decide_False. }
  split; [done|]. unfold replyOf, set_Path. by rewrite Hjoin.
Qed.

Lemma callWebhook_path_witness :
  countByte go.slash webhooks.DeregBackend = 0%nat
  ∧ path_Join [webhooks.DeregBackend] = webhooks.DeregBackend.
Proof.
  split; [reflexivity|].
  apply (callWebhook_path (scenario.http []) scenario.driver
           webhooks.DeregBackend scenario.request
           {| Scheme := "http"; Opaque := ""; Host := "lb.example";
              Path := "/api"; RawPath := ""; RawQuery := ""; Fragment := "" |});
    [discriminate | discriminate | discriminate | reflexivity].
Defined.

(** ** The ensure path over HTTP *)

(** X16: the ensure path of a controller whose invoker is
    [WebhookInvokerImpl]. When the driver's URL does not parse, the round
    trip reports errors, the status code is not 200 or the body does not
    decode, the verdict is [Error] and the reconcile ends with the call:
    nothing is written, no condition is recorded and no event is emitted.
    Otherwise the path acts on the body decoded over the zero response. *)
Theorem ensureBackend_over_http `{Defaults} (c : backendController)
    (genEnv : HttpEnv webhooks.GenerateBackendAddrRequest
                      webhooks.GenerateBackendAddrResponse)
    (opEnv : HttpEnv webhooks.BackendOperationRequest
                     webhooks.BackendOperationResponse)
    (backend : BackendRecord) (driver : LoadBalancerDriver) (w : World) :
  webhookInvoker c = WebhookInvokerImpl genEnv opEnv →
  inProgressDeleting w !! registryKey backend = None →
  getDriver c backend = inr driver →
  let req := operationRequest "ensureBackend" backend (uuids w (drawn w)) in
  let failed :=
    (∃ err, verdict (ensureBackend c backend) w = ErrorResult err)
    ∧ effects (ensureBackend c backend) w = [HookEnsureBackend driver req] in
  (∀ cause, url_Parse opEnv (Url (drv_Spec driver)) = inl cause → failed)
  ∧ (∀ u, url_Parse opEnv (Url (drv_Spec driver)) = inr u →
       let reply := replyOf opEnv driver webhooks.EnsureBackend req u in
       (errs reply ≠ [] → failed)
       ∧ (StatusCode reply ≠ 200 → failed)
       ∧ (∀ cause, json_Unmarshal opEnv (body reply) emptyOperationRsp = inl cause →
            failed)
       ∧ (∀ rsp, errs reply = [] → StatusCode reply = 200 →
            json_Unmarshal opEnv (body reply) emptyOperationRsp = inr rsp →
            CallEnsureBackend (webhookInvoker c) driver req = inr rsp)).
Proof.
  intros Himpl Hreg Hdrv. simpl.
  assert (Hfail : ∀ err,
    callWebhook opEnv driver webhooks.EnsureBackend
      (operationRequest "ensureBackend" backend (uuids w (drawn w)))
      emptyOperationRsp = inl err →
    (∃ err, verdict (ensureBackend c backend) w = ErrorResult err)
    ∧ effects (ensureBackend c backend) w
      = [HookEnsureBackend driver
           (operationRequest "ensureBackend" backend (uuids w (drawn w)))]).
  { intros err Hcall. unfold ensureBackend, sameAddrDeleting. run.
    rewrite Hreg. simpl. rewrite Hdrv. simpl. rewrite Himpl. simpl.
    rewrite Hcall. simpl. split; [by eexists|]. apply drop_app_length. }
  split.
  - intros cause Hparse. eapply Hfail. unfold callWebhook. by rewrite Hparse.
  - intros u Hparse.
    pose proof (callWebhook_reply opEnv driver webhooks.EnsureBackend
                  (operationRequest "ensureBackend" backend (uuids w (drawn w)))
                  emptyOperationRsp u Hparse) as Hcall.
    simpl in Hcall. revert Hcall.
    generalize (replyOf opEnv driver webhooks.EnsureBackend
                  (operationRequest "ensureBackend" backend (uuids w (drawn w))) u)
      as reply.
    intros reply Hcall.
    assert (Hlast : ∀ rsp, errs reply = [] → StatusCode reply = 200 →
              json_Unmarshal opEnv (body reply) emptyOperationRsp = inr rsp →
              CallEnsureBackend (webhookInvoker c) driver
                (operationRequest "ensureBackend" backend (uuids w (drawn w)))
              = inr rsp).
    { intros rsp Hnil Hcode Hdec. rewrite Himpl. simpl. rewrite Hcall.
      rewrite Hnil, Hcode, Hdec. reflexivity. }
    destruct (decide (0 < length (errs reply))%nat) as [Hlen|Hlen].
    { repeat split; try done; intros; by eapply Hfail. }
    destruct (decide (StatusCode reply ≠ StatusOK)) as [Hcode|Hcode].
    { repeat split; try done; intros; by eapply Hfail. }
    destruct (json_Unmarshal opEnv (body reply) emptyOperationRsp)
      as [cause|rsp] eqn:Hdec.
    { repeat split; try done; intros; by eapply Hfail. }
    split; [|split; [|split]]; try done.
    intros Herrs. destruct (errs reply); [done|]. simpl in Hlen. lia.
Qed.

Lemma ensureBackend_over_http_witness :
  let env := scenario.http [("http://lb.example/ensureBackend",
                             scenario.reply 503 "busy")] in
  let ctrl := scenario.controller (WebhookInvokerImpl
                {| url_Parse := scenario.parseURL;
                   url_String := scenario.printURL;
                   EndBytes _ _ _ := scenario.reply 404 "not found";
                   json_Unmarshal _ r := inr r |} env) None in
  StatusCode (scenario.reply 503 "busy") ≠ 200
  ∧ effects (@ensureBackend scenario.defaults ctrl scenario.arriving)
      (scenario.world ∅)
    = [HookEnsureBackend scenario.driver
         (operationRequest "ensureBackend" scenario.arriving "retry-0")].
Proof.
  intros env ctrl. split; [discriminate|].
  destruct (@ensureBackend_over_http scenario.defaults ctrl _ env
              scenario.arriving scenario.driver (scenario.world ∅) eq_refl)
    as [_ Hparsed]; [vm_compute; reflexivity | vm_compute; reflexivity |].
  destruct (Hparsed {| Scheme := "http"; Opaque := ""; Host := "lb.example";
                       Path := "/api"; RawPath := ""; RawQuery := "";
                       Fragment := "" |}) as (_ & Hcode & _);
    [vm_compute; reflexivity|].
  destruct Hcode as [_ Heff]; [vm_compute; discriminate|].
  exact Heff.
Defined.

(** ** The guard is local to the process and to the key *)

Lemma deregisterBackend_unfinished `{Defaults} (c : backendController)
    (backend : BackendRecord) (w : World) :
  (∀ e, e ∈ effects (deregisterBackend c backend) w → written e = None) →
  inProgressDeleting (snd (deregisterBackend c backend w)) !! registryKey backend
  = Some (Name backend).
Proof.
  unfold deregisterBackend, removeFinalizer, storeDeletingBackend,
    removeDeletingRecord. run.
  cases; traces.
  all: try (intros _; by rewrite lookup_insert_eq).
  all: intros Hnone; exfalso;
    match type of Hnone with
    | context [Update ?ns ?r] =>
        assert (Hw : Some r = None)
          by (apply (Hnone (Update ns r));
              repeat first [apply list_elem_of_here | apply list_elem_of_further]);
        discriminate Hw
    end.
Qed.

Lemma deregisterBackend_finished `{Defaults} (c : backendController)
    (backend : BackendRecord) (w : World) (e : Effect) :
  e ∈ effects (deregisterBackend c backend) w → isWrite e = true →
  inProgressDeleting (snd (deregisterBackend c backend w)) !! registryKey backend
  = None.
Proof.
  unfold deregisterBackend, removeFinalizer, storeDeletingBackend,
    removeDeletingRecord. run.
  cases; traces.
  all: try (intros _ _; by rewrite lookup_delete_eq).
  all: intros Hin Hw; exfalso; set_unfold; destruct_or?; simplify_eq/=; done.
Qed.

(** X17: the guard lives in the process. While a record's deregistration is
    unfinished, the ensure of a record with the same [LBInfo] and
    [BackendAddr] is held back without a driver call; a controller made by
    [newBackendController] starts with an empty registry, so after a restart
    the same ensure calls the driver first thing, the unfinished
    deregistration notwithstanding. *)
Theorem guard_lost_on_restart `{Defaults} (c : backendController)
    (leaving arriving : BackendRecord) (driver : LoadBalancerDriver) (w : World)
    (uuids : nat → string) (clock : Z) :
  LBInfo (Spec arriving) = LBInfo (Spec leaving) →
  BackendAddr (Status arriving) = BackendAddr (Status leaving) →
  (∀ e, e ∈ effects (deregisterBackend c leaving) w → written e = None) →
  getDriver c arriving = inr driver →
  let w1 := snd (deregisterBackend c leaving w) in
  let '(c', registry) :=
    newBackendController (client_UpdateStatus c) (client_Update c) (brLister c)
      (driverLister c) (podLister c) (svcLister c) (nodeLister c)
      (webhookInvoker c) in
  let w0 := startWorld registry uuids clock in
  (verdict (ensureBackend c arriving) w1 = AsyncResult (CalculateRetryInterval 0)
   ∧ filter (λ e, isHookCall e = true) (effects (ensureBackend c arriving) w1) = [])
  ∧ ∃ rest, effects (ensureBackend c' arriving) w0
            = HookEnsureBackend driver
                (operationRequest "ensureBackend" arriving (uuids 0%nat)) :: rest.
Proof.
  intros HLB Haddr Hunfinished Hdrv. simpl. split.
  - pose proof (deregisterBackend_unfinished c leaving w Hunfinished) as Hentry.
    assert (Hkey : registryKey arriving = registryKey leaving)
      by (unfold registryKey; by rewrite HLB, Haddr).
    rewrite <- Hkey in Hentry.
    unfold ensureBackend, sameAddrDeleting. run. rewrite Hentry. simpl.
    split; [done|]. by rewrite drop_app_length.
  - unfold ensureBackend, sameAddrDeleting, startWorld, getDriver in *. run.
    rewrite lookup_empty. simpl. simpl in Hdrv. rewrite Hdrv. simpl.
    cases; traces; by eexists.
Qed.

Lemma guard_lost_on_restart_witness :
  let ctrl := scenario.controller (scenario.answering "Running" None) None in
  (∀ e, e ∈ effects (@deregisterBackend scenario.defaults ctrl scenario.leaving)
              (scenario.world ∅) → written e = None)
  ∧ verdict (@ensureBackend scenario.defaults ctrl scenario.arriving)
      (snd (@deregisterBackend scenario.defaults ctrl scenario.leaving
              (scenario.world ∅)))
    = AsyncResult (10 * Second).
Proof.
  intros ctrl.
  assert (Hnone : ∀ e,
    e ∈ effects (@deregisterBackend scenario.defaults ctrl scenario.leaving)
          (scenario.world ∅) → written e = None).
  { intros e Hin. vm_compute in Hin.
    repeat (apply elem_of_cons in Hin as [->|Hin]; [reflexivity|]).
    by apply elem_of_nil in Hin. }
  split; [exact Hnone|].
  destruct (@guard_lost_on_restart scenario.defaults ctrl scenario.leaving
              scenario.arriving scenario.driver (scenario.world ∅)
              (λ n, "retry-" +:+ pretty n) 0 eq_refl eq_refl Hnone)
    as [[Hv _] _]; [vm_compute; reflexivity|].
  exact Hv.
Defined.

(** X18: the registry keeps one entry per key and no owner. When two
    records with the same [LBInfo] and [BackendAddr] are being deleted, the
    second to enter the deregister path replaces the first's name, and
    whichever reaches finalizer removal takes the entry away for both: the
    ensure of a third record on that key is then no longer held back
    although the other deregistration is unfinished. *)
Theorem registry_entry_shared `{Defaults} (c : backendController)
    (first second third : BackendRecord) (w : World) (e : Effect) :
  registryKey second = registryKey first →
  registryKey third = registryKey first →
  (∀ e', e' ∈ effects (deregisterBackend c first) w → written e' = None) →
  let w1 := snd (deregisterBackend c first w) in
  let w2 := snd (deregisterBackend c second w1) in
  e ∈ effects (deregisterBackend c second) w1 → isWrite e = true →
  inProgressDeleting w1 !! registryKey first = Some (Name first)
  ∧ inProgressDeleting w2 !! registryKey first = None
  ∧ fst (sameAddrDeleting third w2) = ("", false).
Proof.
  intros Hsecond Hthird Hunfinished. simpl. intros Hin Hw.
  pose proof (deregisterBackend_unfinished c first w Hunfinished) as Hentry.
  pose proof (deregisterBackend_finished c second _ e Hin Hw) as Hgone.
  rewrite Hsecond in Hgone.
  split; [done|]. split; [done|].
  unfold sameAddrDeleting. run. by rewrite Hthird, Hgone.
Qed.

Lemma registry_entry_shared_witness :
  let invoker :=
    {| CallGenerateBackendAddr _ _ := inl (go.Errorf "unused");
       CallEnsureBackend _ _ := inl (go.Errorf "unused");
       CallDeregisterBackend _ req :=
         inr {| webhooks.op_Status :=
                  if decide (webhooks.RecordID (webhooks.op_Retry req)
                             = "deregisterBackend(uid-leaving)")
                  then "Running" else "Succ";
                webhooks.op_Msg := "";
                webhooks.op_MinRetryDelayInSeconds := 0;
                webhooks.rsp_InjectedInfo := None |} |} in
  let ctrl := scenario.controller invoker None in
  let twin :=
    scenario.record "twin" (Some 200) [FinalizerDeregisterBackend]
      (scenario.spec None None) "1.1.1.1" in
  let w1 := snd (@deregisterBackend scenario.defaults ctrl scenario.leaving
                   (scenario.world ∅)) in
  let w2 := snd (@deregisterBackend scenario.defaults ctrl twin w1) in
  registryKey twin = registryKey scenario.leaving
  ∧ inProgressDeleting w1 !! "lb1|1.1.1.1" = Some "leaving"
  ∧ fst (sameAddrDeleting scenario.arriving w2) = ("", false).
Proof.
  intros invoker ctrl twin w1 w2.
  assert (Hnone : ∀ e,
    e ∈ effects (@deregisterBackend scenario.defaults ctrl scenario.leaving)
          (scenario.world ∅) → written e = None).
  { intros e Hin. vm_compute in Hin.
    repeat (apply elem_of_cons in Hin as [->|Hin]; [reflexivity|]).
    by apply elem_of_nil in Hin. }
  assert (Hin : Update "default" (set_Finalizers twin [])
                  ∈ effects (@deregisterBackend scenario.defaults ctrl twin) w1).
  { vm_compute. do 3 apply list_elem_of_further. apply list_elem_of_here. }
  destruct (@registry_entry_shared scenario.defaults ctrl scenario.leaving twin
              scenario.arriving (scenario.world ∅)
              (Update "default" (set_Finalizers twin []))
              eq_refl eq_refl Hnone Hin eq_refl) as (Hheld & _ & Hfree).
  split; [reflexivity|]. split; [exact Hheld|exact Hfree].
Defined.
